(** * DbusMonitor: a shallow embedding of [dbusmonitor.py]

    The monitor keeps two dictionaries, [items] (tracked services by name)
    and [serviceIds] (cached values by bus identity), and reacts to events
    delivered by the D-Bus main loop.  Python dictionaries with string keys
    are finite maps, exceptions are an explicit outcome, and every method
    of the class is a function in a state-and-exception monad over the
    attributes of [self] and the observable effects on the bus. *)

From Stdlib Require Import ZArith QArith Qround Ascii String DecimalString.
From stdpp Require Import base option list strings gmap fin_maps.

Local Open Scope Z_scope.
Local Open Scope string_scope.
Local Open Scope list_scope.

(** ** Python values and exceptions *)

Module Py.

(** The exceptions the monitor can meet.  [DBusException] carries the
    error name returned by [get_dbus_name()]. *)
Inductive exn : Type :=
| KeyError (key : string)
| AttributeError (attr : string)
| AssertionError
| ValueError
| TypeError
| DBusException (dbus_name : string).

Inductive outcome (A : Type) : Type :=
| Ok (a : A)
| Raise (e : exn).
Arguments Ok {A} a.
Arguments Raise {A} e.

(** Values held in the cache, as [unwrap_dbus_value] produces them.  A
    float is held as the rational it denotes (NaN and the infinities
    are not represented). *)
Inductive value : Type :=
| VNone
| VInt (z : Z)
| VFloat (q : Q)
| VStr (s : string).

Definition is_None (v : value) : bool :=
  match v with VNone => true | _ => false end.

(** *** [str.split('.')] and [sep.join] *)

Fixpoint split (sep : ascii) (s : string) : list string :=
  match s with
  | EmptyString => [EmptyString]
  | String c r =>
      if Ascii.eqb c sep then EmptyString :: split sep r
      else match split sep r with
           | h :: t => String c h :: t
           | [] => [String c EmptyString]
           end
  end.

Fixpoint join (sep : string) (l : list string) : string :=
  match l with
  | [] => EmptyString
  | [x] => x
  | x :: r => x +:+ sep +:+ join sep r
  end.

(** [s[0]], [s[1]], ... : iterating a [str] yields its characters. *)
Fixpoint chars (s : string) : list string :=
  match s with
  | EmptyString => []
  | String c r => String c EmptyString :: chars r
  end.

(** *** [str(n)] for an integer *)

Definition str (n : Z) : string := NilZero.string_of_int (Z.to_int n).

(** *** [int(x)] *)

Definition is_space (c : ascii) : bool :=
  let n := nat_of_ascii c in
  (Nat.eqb n 32 || (Nat.leb 9 n && Nat.leb n 13))%bool.

Fixpoint lstrip (s : string) : string :=
  match s with
  | String c r => if is_space c then lstrip r else s
  | EmptyString => s
  end.

Definition rstrip (s : string) : string :=
  String.rev (lstrip (String.rev s)).

Definition digit (c : ascii) : option Z :=
  let n := nat_of_ascii c in
  if (Nat.leb 48 n && Nat.leb n 57)%bool then Some (Z.of_nat n - 48) else None.

Fixpoint digits (acc : Z) (s : string) : option Z :=
  match s with
  | EmptyString => Some acc
  | String c r =>
      match digit c with
      | Some d => digits (10 * acc + d) r
      | None => None
      end
  end.

Definition unsigned_literal (s : string) : option Z :=
  match s with
  | EmptyString => None
  | _ => digits 0 s
  end.

(** Base-10 literal accepted by Python 2's [int(text)]: surrounding
    whitespace, an optional sign, whitespace again, then at least one
    decimal digit. *)
Definition int_of_string (s : string) : option Z :=
  match rstrip (lstrip s) with
  | String "-" r => Z.opp <$> unsigned_literal (lstrip r)
  | String "+" r => unsigned_literal (lstrip r)
  | t => unsigned_literal t
  end.

Definition int (v : value) : outcome Z :=
  match v with
  | VInt z => Ok z
  | VFloat q => Ok (Z.quot (Qnum q) (Z.pos (Qden q)))
  | VStr s => match int_of_string s with
              | Some z => Ok z
              | None => Raise ValueError
              end
  | VNone => Raise TypeError
  end.

End Py.
Import Py.

(** ** Sequencing outcomes *)

(** Run [k] on the result of [r], unless [r] raised. *)
Definition and_then {A B} (r : outcome A) (k : A -> outcome B) : outcome B :=
  match r with
  | Ok a => k a
  | Raise e => Raise e
  end.

(** A [for] loop whose body may raise: the loop stops at the first
    exception. *)
Fixpoint for_each {A B} (body : A -> B -> outcome A) (a : A) (l : list B) : outcome A :=
  match l with
  | [] => Ok a
  | x :: rest => and_then (body a x) (fun a' => for_each body a' rest)
  end.

(** The lists [f] gives along [l], one after the other; the first exception
    met in that order is the outcome. *)
Fixpoint gather {A B} (f : A -> outcome (list B)) (l : list A) : outcome (list B) :=
  match l with
  | [] => Ok []
  | x :: rest =>
      and_then (f x) (fun h => and_then (gather f rest) (fun t => Ok (h ++ t)))
  end.

(** ** Data model *)

(** The per-path dictionary of the schema, e.g.
    [{'code': 'V', 'whenToLog': 'onIntervalAlways'}].  [whenToLog] may be
    [None]; [precision] is [None] when the key is absent. *)
Record options : Type := {
  code : string;
  whenToLog : option string;
  precision : option Z
}.

Definition whentologoptions : list string :=
  ["configChange"; "onIntervalAlwaysAndOnEvent"; "onIntervalOnlyWhenChanged";
   "onIntervalAlways"].

(** The dictionary [service] built by [scan_dbus_service].  It holds a list
    of paths under each of the four category keys and three scalars under
    ['serviceId'], ['deviceInstance'] and ['match']; the record keeps the
    list-valued part as a map and the scalars as fields. *)
Record service : Type := {
  buckets : gmap string (list string);
  serviceId : string;
  deviceInstance : Z;
  signal_match : string
}.

(** One value of [self.serviceIds]: [{'name': ..., 'paths': {...}}], where
    ['paths'] maps a path to the two-element list [[value, options]]. *)
Record service_id_dict : Type := {
  name : string;
  paths : gmap string (value * options)
}.

(** The [changes] dictionary of a [PropertiesChanged] signal. *)
Record Changes : Type := {
  Value : value;
  Text : value
}.

(** A [GetValue] request handed to [call_async], with the arguments bound
    into its two [partial] continuations. *)
Record AsyncCall : Type := {
  call_service : string;
  call_path : string;
  call_serviceId : string;
  call_options : options
}.

(** Work queued with [idle_add(exit_on_error, f, ...)]. *)
Inductive Task : Type :=
| ProcessNameOwnerChanged (name oldowner newowner : string)
| ExecuteValueChanges (serviceId objectPath : string) (changes : Changes)
    (opts : options).

(** Calls made to the owner's three callbacks. *)
Inductive OwnerCall : Type :=
| ValueChanged (serviceName objectPath : string) (opts : options)
    (changes : Changes) (deviceInstance : Z)
| DeviceAdded (serviceName : string) (deviceInstance : Z)
| DeviceRemoved (serviceName : string) (deviceInstance : Z).

(** The attributes of [self], followed by the effects the monitor has on its
    surroundings: requests in flight, signal receivers (by [bus_name]; the
    empty name is the [NameOwnerChanged] receiver), the idle queue and the
    callbacks invoked so far.  A callback attribute is [true] when it is not
    [None].  [dbusTree] maps a service class to its dictionary of paths,
    held as the sequence of pairs that [iteritems()] yields: the order is
    the one of the loop in [scan_dbus_service], and the paths, being keys,
    are distinct. *)
Record DbusMonitor : Type := {
  valueChangedCallback : bool;
  deviceAddedCallback : bool;
  deviceRemovedCallback : bool;
  dbusTree : gmap string (list (string * options));
  vebusDeviceInstance0 : bool;
  items : gmap string service;
  serviceIds : gmap string service_id_dict;
  async_calls : list AsyncCall;
  receivers : list string;
  idle_queue : list Task;
  owner_calls : list OwnerCall
}.

Definition set_items (f : gmap string service -> gmap string service)
    (s : DbusMonitor) : DbusMonitor :=
  {| valueChangedCallback := valueChangedCallback s;
     deviceAddedCallback := deviceAddedCallback s;
     deviceRemovedCallback := deviceRemovedCallback s;
     dbusTree := dbusTree s;
     vebusDeviceInstance0 := vebusDeviceInstance0 s;
     items := f (items s);
     serviceIds := serviceIds s;
     async_calls := async_calls s;
     receivers := receivers s;
     idle_queue := idle_queue s;
     owner_calls := owner_calls s |}.

Definition set_serviceIds
    (f : gmap string service_id_dict -> gmap string service_id_dict)
    (s : DbusMonitor) : DbusMonitor :=
  {| valueChangedCallback := valueChangedCallback s;
     deviceAddedCallback := deviceAddedCallback s;
     deviceRemovedCallback := deviceRemovedCallback s;
     dbusTree := dbusTree s;
     vebusDeviceInstance0 := vebusDeviceInstance0 s;
     items := items s;
     serviceIds := f (serviceIds s);
     async_calls := async_calls s;
     receivers := receivers s;
     idle_queue := idle_queue s;
     owner_calls := owner_calls s |}.

Definition push_async_call (c : AsyncCall) (s : DbusMonitor) : DbusMonitor :=
  {| valueChangedCallback := valueChangedCallback s;
     deviceAddedCallback := deviceAddedCallback s;
     deviceRemovedCallback := deviceRemovedCallback s;
     dbusTree := dbusTree s;
     vebusDeviceInstance0 := vebusDeviceInstance0 s;
     items := items s;
     serviceIds := serviceIds s;
     async_calls := async_calls s ++ [c];
     receivers := receivers s;
     idle_queue := idle_queue s;
     owner_calls := owner_calls s |}.

Definition push_receiver (bus_name : string) (s : DbusMonitor) : DbusMonitor :=
  {| valueChangedCallback := valueChangedCallback s;
     deviceAddedCallback := deviceAddedCallback s;
     deviceRemovedCallback := deviceRemovedCallback s;
     dbusTree := dbusTree s;
     vebusDeviceInstance0 := vebusDeviceInstance0 s;
     items := items s;
     serviceIds := serviceIds s;
     async_calls := async_calls s;
     receivers := receivers s ++ [bus_name];
     idle_queue := idle_queue s;
     owner_calls := owner_calls s |}.

Definition push_idle (t : Task) (s : DbusMonitor) : DbusMonitor :=
  {| valueChangedCallback := valueChangedCallback s;
     deviceAddedCallback := deviceAddedCallback s;
     deviceRemovedCallback := deviceRemovedCallback s;
     dbusTree := dbusTree s;
     vebusDeviceInstance0 := vebusDeviceInstance0 s;
     items := items s;
     serviceIds := serviceIds s;
     async_calls := async_calls s;
     receivers := receivers s;
     idle_queue := idle_queue s ++ [t];
     owner_calls := owner_calls s |}.

Definition push_owner_call (c : OwnerCall) (s : DbusMonitor) : DbusMonitor :=
  {| valueChangedCallback := valueChangedCallback s;
     deviceAddedCallback := deviceAddedCallback s;
     deviceRemovedCallback := deviceRemovedCallback s;
     dbusTree := dbusTree s;
     vebusDeviceInstance0 := vebusDeviceInstance0 s;
     items := items s;
     serviceIds := serviceIds s;
     async_calls := async_calls s;
     receivers := receivers s;
     idle_queue := idle_queue s;
     owner_calls := owner_calls s ++ [c] |}.

(** [self.serviceIds[serviceId]['paths'][path] = [value, options]] once the
    outer entry is known to exist. *)
Definition store_path (serviceId path : string) (v : value) (opts : options)
    (s : DbusMonitor) : DbusMonitor :=
  set_serviceIds
    (alter (fun d => {| name := name d; paths := <[path := (v, opts)]> (paths d) |})
       serviceId) s.

(** ** The bus as the monitor sees it *)

(** A call into the bus either returns or raises [DBusException] with an
    error name. *)
Inductive dbus_result (A : Type) : Type :=
| Returned (a : A)
| DBusError (dbus_name : string).
Arguments Returned {A} a.
Arguments DBusError {A} dbus_name.

(** The answers of the bus to the synchronous calls of one scan:
    - [get_name_owner serviceName];
    - [VeDbusItemImport(conn, serviceName, path, createsignal=False).get_value()],
      a class of [vedbus]: the value of the remote item, [None] when the
      item has none, or the bus error met while reaching the service;
    - whether [call_async] itself raises ([Some dbus_name]) or queues the
      request ([None]);
    - whether [add_signal_receiver] raises. *)
Record Bus : Type := {
  get_name_owner : string -> dbus_result string;
  import_get_value : string -> string -> dbus_result value;
  call_async : string -> string -> option string;
  add_signal_receiver : string -> option string
}.

(** ** State, exceptions and a record of every intermediate state *)

(** A method runs from a state to an outcome and a final state.  It also
    returns, in order, the state after each of its writes, which is what
    a reader running between two statements could see. *)
Definition M (A : Type) : Type :=
  DbusMonitor -> outcome A * DbusMonitor * list DbusMonitor.

Definition ret {A} (a : A) : M A := fun s => (Ok a, s, []).

Definition raise {A} (e : exn) : M A := fun s => (Raise e, s, []).

Definition bind {A B} (m : M A) (k : A -> M B) : M B :=
  fun s =>
    match m s with
    | (Ok a, s1, h1) =>
        match k a s1 with
        | (r, s2, h2) => (r, s2, h1 ++ h2)
        end
    | (Raise e, s1, h1) => (Raise e, s1, h1)
    end.

Definition gets {A} (f : DbusMonitor -> A) : M A := fun s => (Ok (f s), s, []).

Definition modify (f : DbusMonitor -> DbusMonitor) : M unit :=
  fun s => (Ok tt, f s, [f s]).

Definition lift {A} (r : outcome A) : M A := fun s => (r, s, []).

Definition reads {A} (f : DbusMonitor -> outcome A) : M A := fun s => (f s, s, []).

Definition call_bus {A} (r : dbus_result A) : M A :=
  match r with
  | Returned a => ret a
  | DBusError n => raise (DBusException n)
  end.

(** [try: body except dbus.exceptions.DBusException as e: handler] *)
Definition try_except_dbus {A} (body : M A) (handler : string -> M A) : M A :=
  fun s =>
    match body s with
    | (Raise (DBusException n), s1, h1) =>
        match handler n s1 with
        | (r, s2, h2) => (r, s2, h1 ++ h2)
        end
    | r => r
    end.

Notation "'let*' x ':=' m 'in' k" := (bind m (fun x => k))
  (at level 10, x name, m at level 100, k at level 200).
Notation "m ';;' k" := (bind m (fun _ => k))
  (at level 100, k at level 200, right associativity).

Definition result_of {A} (r : outcome A * DbusMonitor * list DbusMonitor) : outcome A :=
  r.1.1.
Definition state_of {A} (r : outcome A * DbusMonitor * list DbusMonitor) : DbusMonitor :=
  r.1.2.
Definition writes_of {A} (r : outcome A * DbusMonitor * list DbusMonitor) : list DbusMonitor :=
  r.2.

(** ** The methods of [DbusMonitor] *)

Section Monitor.

(** The collaborators imported from [ve_utils] and the Python runtime.  A
    value arriving from the bus is a Python object of a D-Bus type
    ([dbus.Int32], [dbus.Double], ...); [unwrap_dbus_value] turns it into a
    plain one.  [round_float] is the arithmetic of the builtin [round] on a
    float and a number of digits. *)
Variable unwrap_dbus_value : value -> value.
Variable round_float : Q -> Z -> Q.

(** The builtin [round(value, ndigits)] of Python 2: a number gives a
    float, anything else raises [TypeError]. *)
Definition round (v : value) (ndigits : Z) : outcome value :=
  match v with
  | VInt z => Ok (VFloat (round_float (inject_Z z) ndigits))
  | VFloat q => Ok (VFloat (round_float q ndigits))
  | VNone | VStr _ => Raise TypeError
  end.

(** [self.items[serviceName]['deviceInstance']] *)
Definition get_device_instance (serviceName : string) (s : DbusMonitor) : outcome Z :=
  match items s !! serviceName with
  | Some svc => Ok (deviceInstance svc)
  | None => Raise (KeyError serviceName)
  end.

Definition _set_value_callback (serviceId path : string) (opts : options)
    (v : value) : M unit :=
  let* sids := gets serviceIds in
  match sids !! serviceId with
  | Some _ => modify (store_path serviceId path (unwrap_dbus_value v) opts)
  | None => raise (KeyError serviceId)
  end.

Definition _set_value_error (serviceId path : string) (opts : options) : M unit :=
  let* sids := gets serviceIds in
  match sids !! serviceId with
  | Some _ => modify (store_path serviceId path VNone opts)
  | None => raise (KeyError serviceId)
  end.

(** ['.'.join(serviceName.split('.')[0:3])] *)
Definition class_of (serviceName : string) : string :=
  join "." (take 3 (split "." serviceName)).

(** The body of [for path, options in paths.iteritems()], with the lists of
    the local dictionary [service] threaded through. *)
Definition scan_path (bus : Bus) (serviceName serviceId : string)
    (service : gmap string (list string)) (item : string * options)
    : M (gmap string (list string)) :=
  let path := item.1 in
  let opts := item.2 in
  if negb (match whenToLog opts with
           | None => true
           | Some w => bool_decide (w ∈ whentologoptions)
           end)
  then raise AssertionError
  else
    match call_async bus serviceName path with
    | None =>
        modify (push_async_call
                  {| call_service := serviceName; call_path := path;
                     call_serviceId := serviceId; call_options := opts |})
    | Some _ => modify (store_path serviceId path VNone opts)
    end;;
    match whenToLog opts with
    | Some (String _ _ as w) =>
        match service !! w with
        | Some l => ret (<[w := l ++ [path]]> service)
        | None => raise (KeyError w)
        end
    | _ => ret service
    end.

Fixpoint scan_paths (bus : Bus) (serviceName serviceId : string)
    (service : gmap string (list string)) (ps : list (string * options))
    : M (gmap string (list string)) :=
  match ps with
  | [] => ret service
  | item :: rest =>
      let* service' := scan_path bus serviceName serviceId service item in
      scan_paths bus serviceName serviceId service' rest
  end.

(** [service[whentolog] = []] for each of the four options. *)
Definition empty_buckets : gmap string (list string) :=
  foldl (fun service whentolog => <[whentolog := []]> service) ∅ whentologoptions.

(** The device instance of a service being scanned. *)
Definition read_device_instance (bus : Bus) (serviceName : string) : M Z :=
  let* flag := gets vebusDeviceInstance0 in
  if (String.eqb serviceName "com.victronenergy.vebus.ttyO1" && flag)%bool
  then ret 0
  else
    let* v := call_bus (import_get_value bus serviceName "/DeviceInstance") in
    match v with
    | VNone => ret 0
    | _ => lift (int v)
    end.

(** The statements of [scan_dbus_service] inside its [try]. *)
Definition scan_body (bus : Bus) (serviceName serviceId : string)
    (service : gmap string (list string)) (ps : list (string * options)) : M bool :=
  let* device_instance := read_device_instance bus serviceName in
  let* service := scan_paths bus serviceName serviceId service ps in
  let* m := match add_signal_receiver bus serviceName with
            | None => modify (push_receiver serviceName);; ret serviceName
            | Some n => raise (DBusException n)
            end in
  modify (set_items (<[serviceName :=
            {| buckets := service; serviceId := serviceId;
               deviceInstance := device_instance; signal_match := m |}]>));;
  ret true.

(** The bus reports that the service is gone. *)
Definition vanished (dbus_name : string) : bool :=
  (String.eqb dbus_name "org.freedesktop.DBus.Error.ServiceUnknown"
   || String.eqb dbus_name "org.freedesktop.DBus.Error.Disconnected")%bool.

Definition scan_dbus_service (bus : Bus) (serviceName : string) : M bool :=
  let* tree := gets dbusTree in
  match tree !! class_of serviceName with
  | None | Some [] => ret false
  | Some ps =>
      let* its := gets items in
      if bool_decide (is_Some (its !! serviceName)) then raise AssertionError
      else
        let service := empty_buckets in
        let* serviceId := call_bus (get_name_owner bus serviceName) in
        modify (set_serviceIds (<[serviceId := {| name := serviceName; paths := ∅ |}]>));;
        try_except_dbus
          (scan_body bus serviceName serviceId service ps)
          (fun n => if vanished n then ret false else raise (DBusException n))
  end.

(** The loop of [__init__] over [dbusConn.list_names()]. *)
Fixpoint scan_all (bus : Bus) (serviceNames : list string) : M unit :=
  match serviceNames with
  | [] => ret tt
  | serviceName :: rest => scan_dbus_service bus serviceName;; scan_all bus rest
  end.

Definition dbus_name_owner_changed (name oldowner newowner : string) : M unit :=
  if negb (String.prefix "com.victronenergy." name) then ret tt
  else modify (push_idle (ProcessNameOwnerChanged name oldowner newowner)).

Definition _process_name_owner_changed (bus : Bus) (name oldowner newowner : string)
    : M unit :=
  if negb (String.eqb newowner EmptyString) then
    let* newdeviceadded := scan_dbus_service bus name in
    let* cb := gets deviceAddedCallback in
    if (newdeviceadded && cb)%bool then
      let* i := reads (get_device_instance name) in
      modify (push_owner_call (DeviceAdded name i))
    else ret tt
  else
    let* its := gets items in
    match its !! name with
    | Some svc =>
        let i := deviceInstance svc in
        let* sids := gets serviceIds in
        match sids !! serviceId svc with
        | Some _ => modify (set_serviceIds (delete (serviceId svc)))
        | None => raise (KeyError (serviceId svc))
        end;;
        modify (set_items (delete name));;
        let* cb := gets deviceRemovedCallback in
        if cb then modify (push_owner_call (DeviceRemoved name i)) else ret tt
    | None => ret tt
    end.

(** [a[0] = ...] on the list stored under [paths[path]]. *)
Definition handler_value_changes (changes : Changes) (path senderId : string) : M unit :=
  let* sids := gets serviceIds in
  match sids !! senderId with
  | None => raise (KeyError senderId)
  | Some d =>
      match paths d !! path with
      | None => ret tt
      | Some a =>
          modify (store_path senderId path (unwrap_dbus_value (Value changes)) a.2);;
          let* cb := gets valueChangedCallback in
          if cb then modify (push_idle (ExecuteValueChanges senderId path changes a.2))
          else ret tt
      end
  end.

Definition _execute_value_changes (serviceId objectPath : string) (changes : Changes)
    (opts : options) : M unit :=
  let* sids := gets serviceIds in
  match sids !! serviceId with
  | None => ret tt
  | Some d =>
      let serviceName := name d in
      let* callback := gets valueChangedCallback in
      let* i := reads (get_device_instance serviceName) in
      if callback
      then modify (push_owner_call (ValueChanged serviceName objectPath opts changes i))
      else raise TypeError
  end.

(** *** Queries *)

Definition get_value (serviceName objectPath : string) (default_value : value)
    (s : DbusMonitor) : outcome value :=
  match items s !! serviceName with
  | None => Ok default_value
  | Some svc =>
      match serviceIds s !! serviceId svc with
      | None => Raise (KeyError (serviceId svc))
      | Some d =>
          match paths d !! objectPath with
          | None => Ok default_value
          | Some a => Ok a.1
          end
      end
  end.

(** Attribute lookup on an instance: the names bound by the class body and
    those assigned in [__init__].  The class derives from [object]. *)
Definition class_body : list string :=
  ["__init__"; "dbus_name_owner_changed"; "_process_name_owner_changed";
   "_set_value_callback"; "_set_value_error"; "scan_dbus_service";
   "handler_value_changes"; "_execute_value_changes"; "get_value"; "set_value";
   "get_service_list"; "get_device_instance"; "get_values";
   "get_values_for_service"].

Definition instance_attributes : list string :=
  ["valueChangedCallback"; "deviceAddedCallback"; "deviceRemovedCallback";
   "dbusTree"; "vebusDeviceInstance0"; "items"; "serviceIds"; "dbusConn"].

Definition hasattr (attr : string) : bool :=
  bool_decide (attr ∈ instance_attributes ++ class_body).

(** [set_value] goes through [self.get_item].  [bound_get_item] is what the
    attribute would evaluate to, and [item_set_value] the remote
    [SetValue] of the item it returns. *)
Definition set_value {Item : Type} (bound_get_item : string -> string -> option Item)
    (item_set_value : Item -> value -> outcome value)
    (serviceName objectPath : string) (v : value) (s : DbusMonitor) : outcome value :=
  if hasattr "get_item" then
    match bound_get_item serviceName objectPath with
    | None => Ok (VInt (-1))
    | Some item => item_set_value item v
    end
  else Raise (AttributeError "get_item").

Definition get_service_list (classfilter : option string) (s : DbusMonitor)
    : outcome (gmap string Z) :=
  let class_as_list := (fun c => take 3 (split "." c)) <$> classfilter in
  foldl
    (fun acc servicename =>
       match acc with
       | Raise e => Raise e
       | Ok r =>
           if match classfilter with
              | None | Some EmptyString => true
              | Some _ =>
                  bool_decide (Some (take 3 (split "." servicename)) = class_as_list)
              end
           then match get_device_instance servicename s with
                | Ok i => Ok (<[servicename := i]> r)
                | Raise e => Raise e
                end
           else Ok r
       end)
    (Ok ∅) (map_to_list (items s)).*1.

(** [for path in service[category]] over the whole dictionary [service]. *)
Definition service_getitem (svc : service) (category : string) : outcome (list string) :=
  if String.eqb category "serviceId" then Ok (chars (serviceId svc))
  else if (String.eqb category "deviceInstance" || String.eqb category "match")%bool
  then Raise TypeError
  else match buckets svc !! category with
       | Some l => Ok l
       | None => Raise (KeyError category)
       end.

(** [self.serviceIds[serviceId]['paths'][path]], with nothing where Python
    raises [KeyError]. *)
Definition cached (serviceId path : string) (s : DbusMonitor) : option (value * options) :=
  serviceIds s !! serviceId ≫= (fun d => paths d !! path).

(** [converter.convert(options['code'], value)] when a converter is given;
    the converter is the caller's and may raise. *)
Definition converted (converter : option (string -> value -> outcome value))
    (opts : options) (v : value) : outcome value :=
  match converter with
  | None => Ok v
  | Some convert => convert (code opts) v
  end.

(** [precision = options.get('precision')] and
    [if precision: value = round(value, precision)]. *)
Definition rounded (opts : options) (v : value) : outcome value :=
  match precision opts with
  | None | Some 0 => Ok v
  | Some p => round v p
  end.

(** The body of [for path in service[category]]. *)
Definition emit_path (converter : option (string -> value -> outcome value))
    (svc : service) (deviceInstance : Z) (s : DbusMonitor)
    (result : gmap string value) (path : string) : outcome (gmap string value) :=
  match cached (serviceId svc) path s with
  | Some (VNone, _) | None => Ok result
  | Some (v, opts) =>
      and_then (converted converter opts v) (fun v1 =>
      and_then (rounded opts v1) (fun v2 =>
      Ok (<[code opts +:+ "[" +:+ str deviceInstance +:+ "]" := v2]> result)))
  end.

Definition get_values_for_service (categoryfilter : list string) (servicename : string)
    (converter : option (string -> value -> outcome value)) (s : DbusMonitor)
    : outcome (gmap string value) :=
  match get_device_instance servicename s, items s !! servicename with
  | Ok deviceInstance, Some svc =>
      for_each
        (fun result category =>
           and_then (service_getitem svc category) (fun l =>
           for_each (emit_path converter svc deviceInstance s) result l))
        ∅ categoryfilter
  | Raise e, _ => Raise e
  | _, None => Raise (KeyError servicename)
  end.

(** [result.update(d)]: the entries of [d] win. *)
Definition get_values (categoryfilter : list string)
    (converter : option (string -> value -> outcome value)) (s : DbusMonitor)
    : outcome (gmap string value) :=
  for_each
    (fun result serviceName =>
       and_then (get_values_for_service categoryfilter serviceName converter s)
         (fun d => Ok (d ∪ result)))
    ∅ (map_to_list (items s)).*1.

(** *** [get_values] in words *)

(** The paths of a service whose category is in [categoryfilter]. *)
Definition visited_paths (categoryfilter : list string) (svc : service) : list string :=
  category ← categoryfilter; default [] (buckets svc !! category).


(** What one path contributes, given the rounding rule: nothing while its
    cached value is missing or null, else the value, converted and then
    rounded, under [code[deviceInstance]]; an exception of the converter or
    of the rounding is the outcome. *)
Definition entry_with (rounding : options -> value -> outcome value)
    (converter : option (string -> value -> outcome value))
    (s : DbusMonitor) (svc : service) (path : string) : outcome (list (string * value)) :=
  match cached (serviceId svc) path s with
  | Some (v, opts) =>
      if is_None v then Ok []
      else
        and_then (converted converter opts v) (fun v1 =>
        and_then (rounding opts v1) (fun v2 =>
        Ok [(code opts +:+ "[" +:+ str (deviceInstance svc) +:+ "]", v2)]))
  | None => Ok []
  end.

Definition service_entries_with (rounding : options -> value -> outcome value)
    (categoryfilter : list string)
    (converter : option (string -> value -> outcome value)) (s : DbusMonitor)
    (svc : service) : outcome (list (string * value)) :=
  gather (entry_with rounding converter s svc) (visited_paths categoryfilter svc).



(** The entries with the rounding applied only for a precision that is set
    and not 0. *)
Definition entry_of := entry_with rounded.
Definition service_entries := service_entries_with rounded.

(** The dictionary obtained by assigning the entries in order: for a key
    assigned twice the later value stays. *)
Definition dict_of (entries : list (string * value)) : gmap string value :=
  list_to_map (reverse entries).

(** The attributes assigned by [__init__], before the first scan. *)
Definition new_monitor (tree : gmap string (list (string * options)))
    (valueChanged deviceAdded deviceRemoved instance0 : bool) : DbusMonitor :=
  {| valueChangedCallback := valueChanged;
     deviceAddedCallback := deviceAdded;
     deviceRemovedCallback := deviceRemoved;
     dbusTree := tree;
     vebusDeviceInstance0 := instance0;
     items := ∅;
     serviceIds := ∅;
     async_calls := [];
     receivers := [EmptyString];
     idle_queue := [];
     owner_calls := [] |}.

(** ** Closed forms used to state what a scan leaves behind *)

(** [options['whenToLog'] is None or options['whenToLog'] in whentologoptions] *)
Definition valid_options (opts : options) : bool :=
  match whenToLog opts with
  | None => true
  | Some w => bool_decide (w ∈ whentologoptions)
  end.

(** The value [read_device_instance] computes, as a function of the bus
    answers and of [vebusDeviceInstance0]. *)
Definition device_instance_of (bus : Bus) (serviceName : string) (flag : bool)
    : outcome Z :=
  if (String.eqb serviceName "com.victronenergy.vebus.ttyO1" && flag)%bool then Ok 0
  else match import_get_value bus serviceName "/DeviceInstance" with
       | Returned VNone => Ok 0
       | Returned v => int v
       | DBusError n => Raise (DBusException n)
       end.

(** The state after the loop over the schema paths has run to its end. *)
Definition after_path (bus : Bus) (serviceName serviceId : string)
    (s : DbusMonitor) (item : string * options) : DbusMonitor :=
  match call_async bus serviceName item.1 with
  | None =>
      push_async_call
        {| call_service := serviceName; call_path := item.1;
           call_serviceId := serviceId; call_options := item.2 |} s
  | Some _ => store_path serviceId item.1 VNone item.2 s
  end.

Definition after_paths (bus : Bus) (serviceName serviceId : string)
    (ps : list (string * options)) (s : DbusMonitor) : DbusMonitor :=
  foldl (after_path bus serviceName serviceId) s ps.

(** The category lists after the loop has run to its end. *)
Definition bucket_step (service : gmap string (list string))
    (item : string * options) : gmap string (list string) :=
  match whenToLog item.2 with
  | Some (String _ _ as w) =>
      match service !! w with
      | Some l => <[w := l ++ [item.1]]> service
      | None => service
      end
  | _ => service
  end.

Definition buckets_after (service : gmap string (list string))
    (ps : list (string * options)) : gmap string (list string) :=
  foldl bucket_step service ps.

(** The state once the bus identity has its fresh, empty cache entry. *)
Definition registered (serviceName serviceId : string) (s : DbusMonitor) : DbusMonitor :=
  set_serviceIds (<[serviceId := {| name := serviceName; paths := ∅ |}]>) s.

(** The dictionary a completed scan publishes under [serviceName]. *)
Definition scanned_service (serviceName serviceId : string) (device_instance : Z)
    (ps : list (string * options)) : service :=
  {| buckets := buckets_after empty_buckets ps; serviceId := serviceId;
     deviceInstance := device_instance; signal_match := serviceName |}.

(** The state a completed scan leaves. *)
Definition published (bus : Bus) (serviceName serviceId : string) (device_instance : Z)
    (ps : list (string * options)) (s : DbusMonitor) : DbusMonitor :=
  set_items (<[serviceName := scanned_service serviceName serviceId device_instance ps]>)
    (push_receiver serviceName
       (after_paths bus serviceName serviceId ps (registered serviceName serviceId s))).

(** A tracked service has a list for each of the four categories. *)
Definition has_buckets (service : gmap string (list string)) : Prop :=
  ∀ w, w ∈ whentologoptions → is_Some (service !! w).

Definition wf_state (s : DbusMonitor) : Prop :=
  ∀ serviceName svc, items s !! serviceName = Some svc → has_buckets (buckets svc).

(** A method that leaves the registry [items] alone, in its final state and
    in every state it writes on the way. *)
Definition keeps_items {A} (m : M A) : Prop :=
  ∀ s, items (state_of (m s)) = items s ∧
       Forall (fun s' => items s' = items s) (writes_of (m s)).

End Monitor.

(** ** Further closed forms *)

(** A method that leaves a component [f] of the state as it found it. *)
Definition preserves {A B} (f : DbusMonitor -> B) (m : M A) : Prop :=
  ∀ s, f (state_of (m s)) = f s.

(** A component that none of the four writes of a scan touches. *)
Definition scan_frame {B} (f : DbusMonitor -> B) : Prop :=
  (∀ g s, f (set_items g s) = f s) ∧ (∀ g s, f (set_serviceIds g s) = f s) ∧
  (∀ c s, f (push_async_call c s) = f s) ∧ (∀ n s, f (push_receiver n s) = f s).

(** The request [scan_path] hands to [call_async] for a schema entry, when
    [call_async] accepts it. *)
Definition fetch_of (bus : Bus) (serviceName serviceId : string)
    (item : string * options) : option AsyncCall :=
  match call_async bus serviceName item.1 with
  | None =>
      Some {| call_service := serviceName; call_path := item.1;
              call_serviceId := serviceId; call_options := item.2 |}
  | Some _ => None
  end.

(** The schema paths whose [whenToLog] is [category], in schema order. *)
Definition paths_of_category (category : string) (ps : list (string * options))
    : list string :=
  (filter (fun item => whenToLog item.2 = Some category) ps).*1.

(** The test of [get_service_list] on one service name. *)
Definition in_class (classfilter : option string) (servicename : string) : bool :=
  match classfilter with
  | None | Some EmptyString => true
  | Some c => bool_decide (take 3 (split "." servicename) = take 3 (split "." c))
  end.

(** Whether the character [c] occurs in [s]. *)
Fixpoint contains (c : ascii) (s : string) : bool :=
  match s with
  | EmptyString => false
  | String c' r => (Ascii.eqb c' c || contains c r)%bool
  end.

(** The state once a tracked service has been taken out of both
    dictionaries. *)
Definition without (serviceName : string) (svc : service) (s : DbusMonitor)
    : DbusMonitor :=
  set_items (delete serviceName) (set_serviceIds (delete (serviceId svc)) s).

(** ** A battery monitor on the bus *)

Module Scenario.

Definition soc : options :=
  {| code := "soc"; whenToLog := Some "onIntervalAlways"; precision := None |}.

Definition serial : options :=
  {| code := "ser"; whenToLog := None; precision := None |}.

Definition tree : gmap string (list (string * options)) :=
  {[ "com.victronenergy.battery" := [("/Soc", soc); ("/Serial", serial)] ]}.

Definition battery : string := "com.victronenergy.battery.ttyO1".

(** Every call succeeds; the battery is connection [:1.5], instance 2. *)
Definition bus : Bus :=
  {| get_name_owner := fun _ => Returned ":1.5";
     import_get_value := fun _ _ => Returned (VInt 2);
     call_async := fun _ _ => None;
     add_signal_receiver := fun _ => None |}.

Definition start : DbusMonitor := new_monitor tree true true true false.

Definition scanned : DbusMonitor := state_of (scan_dbus_service bus battery start).

(** The [GetValue] for [/Soc] has come back with 42. *)
Definition fetched : DbusMonitor :=
  state_of (_set_value_callback id ":1.5" "/Soc" soc (VInt 42) scanned).

(** The battery has left the bus and the owner change has been processed. *)
Definition removed : DbusMonitor :=
  state_of (_process_name_owner_changed bus battery ":1.5" EmptyString scanned).

(** [call_async] raises for every path. *)
Definition refusing_bus : Bus :=
  {| get_name_owner := fun _ => Returned ":1.5";
     import_get_value := fun _ _ => Returned (VInt 2);
     call_async := fun _ _ => Some "org.freedesktop.DBus.Error.NoReply";
     add_signal_receiver := fun _ => None |}.

(** The service holds a text that is no number under [/DeviceInstance]. *)
Definition text_bus : Bus :=
  {| get_name_owner := fun _ => Returned ":1.5";
     import_get_value := fun _ _ => Returned (VStr "abc");
     call_async := fun _ _ => None;
     add_signal_receiver := fun _ => None |}.

(** The service is gone by the time its device instance is read. *)
Definition vanishing_bus : Bus :=
  {| get_name_owner := fun _ => Returned ":1.5";
     import_get_value :=
       fun _ _ => DBusError "org.freedesktop.DBus.Error.ServiceUnknown";
     call_async := fun _ _ => None;
     add_signal_receiver := fun _ => None |}.

(** Rounding of a rational to [ndigits] decimals, halves away from zero. *)
Definition round_decimal (q : Q) (ndigits : Z) : Q :=
  let scale := if (0 <=? ndigits)%Z then inject_Z (10 ^ ndigits)
               else (/ inject_Z (10 ^ (- ndigits)))%Q in
  let scaled := (q * scale)%Q in
  let n := if Qle_bool 0 scaled then Qfloor (scaled + (1 # 2))%Q
           else (- Qfloor (- scaled + (1 # 2))%Q)%Z in
  Qred (inject_Z n / scale)%Q.




(** A service with a voltage to be rounded to one decimal. *)
Definition voltage : options :=
  {| code := "V"; whenToLog := Some "onIntervalAlways"; precision := Some 1 |}.

Definition volt_tree : gmap string (list (string * options)) :=
  {[ "com.victronenergy.battery" := [("/Dc/0/Voltage", voltage)] ]}.

Definition volt_scanned : DbusMonitor :=
  state_of (scan_dbus_service bus battery (new_monitor volt_tree true true true false)).

(** The voltage reads 12.34. *)
Definition measured : DbusMonitor :=
  state_of (_set_value_callback id ":1.5" "/Dc/0/Voltage" voltage (VFloat (1234 # 100))
              volt_scanned).

(** The service has sent a text for its voltage. *)
Definition garbled : DbusMonitor :=
  state_of (_set_value_callback id ":1.5" "/Dc/0/Voltage" voltage (VStr "---")
              volt_scanned).

End Scenario.

(** ** More of the battery monitor *)

Module Site.

(** A service of a class the schema does not know. *)
Definition charger : string := "com.victronenergy.solarcharger.ttyO2".

(** A schema with a category that does not exist. *)
Definition odd_tree : gmap string (list (string * options)) :=
  {[ "com.victronenergy.battery" :=
       [("/Soc", {| code := "soc"; whenToLog := Some "sometimes"; precision := None |})] ]}.

Definition odd_start : DbusMonitor := new_monitor odd_tree true true true false.

(** The state of charge has moved to 43. *)
Definition soc_changed : Changes := {| Value := VInt 43; Text := VStr "43%" |}.

(** The paths of the battery class in [Scenario.tree]. *)
Definition battery_paths : list (string * options) :=
  [("/Soc", Scenario.soc); ("/Serial", Scenario.serial)].

(** The battery service as the scan of [Scenario.bus] publishes it. *)
Definition battery_service : service :=
  scanned_service Scenario.battery ":1.5" 2 battery_paths.

(** A second name of the connection [:1.5], scanned after the battery, and
    the state once the battery has been removed. *)
Definition spare : string := "com.victronenergy.battery.ttyO2".

Definition shared : DbusMonitor :=
  state_of (scan_dbus_service Scenario.bus spare Scenario.scanned).

Definition spare_left : DbusMonitor :=
  state_of (_process_name_owner_changed Scenario.bus Scenario.battery ":1.5" EmptyString
              shared).

(** The battery scanned by a monitor that has no value-changed callback. *)
Definition silent : DbusMonitor :=
  state_of (scan_dbus_service Scenario.bus Scenario.battery
              (new_monitor Scenario.tree false true true false)).

End Site.

(** ** Properties *)

Section Properties.

Variable unwrap_dbus_value : value -> value.
Variable round_float : Q -> Z -> Q.

Lemma keeps_items_ret {A} (a : A) : keeps_items (ret a).
Proof. intros s. split; [done | constructor]. Qed.

Lemma keeps_items_raise {A} (e : exn) : keeps_items (@raise A e).
Proof. intros s. split; [done | constructor]. Qed.

Lemma keeps_items_gets {A} (f : DbusMonitor -> A) : keeps_items (gets f).
Proof. intros s. split; [done | constructor]. Qed.

Lemma keeps_items_lift {A} (r : outcome A) : keeps_items (lift r).
Proof. intros s. split; [done | constructor]. Qed.

Lemma keeps_items_reads {A} (f : DbusMonitor -> outcome A) : keeps_items (reads f).
Proof. intros s. split; [done | constructor]. Qed.

Lemma keeps_items_call_bus {A} (r : dbus_result A) : keeps_items (call_bus r).
Proof. destruct r; [apply keeps_items_ret | apply keeps_items_raise]. Qed.

Lemma keeps_items_modify (f : DbusMonitor -> DbusMonitor) :
  (∀ s, items (f s) = items s) → keeps_items (modify f).
Proof.
  intros Hf s. split; [apply Hf |].
  constructor; [apply Hf | constructor].
Qed.

Lemma keeps_items_bind {A B} (m : M A) (k : A -> M B) :
  keeps_items m → (∀ a, keeps_items (k a)) → keeps_items (bind m k).
Proof.
  intros Hm Hk s. unfold bind, state_of, writes_of in *.
  destruct (Hm s) as [Hs Hw]. unfold state_of, writes_of in Hs, Hw.
  destruct (m s) as [[[a | e] s1] h1]; simpl in *.
  - destruct (Hk a s1) as [Hs2 Hw2]. unfold state_of, writes_of in Hs2, Hw2.
    destruct (k a s1) as [[r s2] h2]; simpl in *. split; [congruence |].
    apply Forall_app. split; [done |].
    eapply Forall_impl; [exact Hw2 |]. simpl. congruence.
  - done.
Qed.

Lemma keeps_items_try {A} (body : M A) (handler : string -> M A) :
  keeps_items body → (∀ n, keeps_items (handler n)) →
  keeps_items (try_except_dbus body handler).
Proof.
  intros Hm Hk s. unfold try_except_dbus, state_of, writes_of in *.
  destruct (Hm s) as [Hs Hw]. unfold state_of, writes_of in Hs, Hw.
  destruct (body s) as [[[a | e] s1] h1]; simpl in *; [done |].
  destruct e; try done.
  destruct (Hk dbus_name s1) as [Hs2 Hw2]. unfold state_of, writes_of in Hs2, Hw2.
  destruct (handler dbus_name s1) as [[r s2] h2]; simpl in *. split; [congruence |].
  apply Forall_app. split; [done |].
  eapply Forall_impl; [exact Hw2 |]. simpl. congruence.
Qed.

Create HintDb keeps discriminated.
#[local] Hint Resolve keeps_items_ret keeps_items_raise keeps_items_gets
  keeps_items_lift keeps_items_reads keeps_items_call_bus keeps_items_bind
  keeps_items_try : keeps.

Lemma keeps_items_store_path (sid path : string) (v : value) (opts : options) :
  keeps_items (modify (store_path sid path v opts)).
Proof. by apply keeps_items_modify. Qed.

Lemma keeps_items_push_idle (t : Task) : keeps_items (modify (push_idle t)).
Proof. by apply keeps_items_modify. Qed.

Lemma keeps_items_push_owner_call (c : OwnerCall) :
  keeps_items (modify (push_owner_call c)).
Proof. by apply keeps_items_modify. Qed.

Lemma keeps_items_push_async_call (c : AsyncCall) :
  keeps_items (modify (push_async_call c)).
Proof. by apply keeps_items_modify. Qed.

#[local] Hint Resolve keeps_items_store_path keeps_items_push_idle
  keeps_items_push_owner_call keeps_items_push_async_call : keeps.

(** *** The steps of a scan *)

Lemma read_device_instance_run (bus : Bus) (serviceName : string) (s : DbusMonitor) :
  read_device_instance bus serviceName s
  = (device_instance_of bus serviceName (vebusDeviceInstance0 s), s, []).
Proof.
  unfold read_device_instance, device_instance_of, bind, gets. simpl.
  destruct (_ && _)%bool; [done |].
  destruct (import_get_value bus serviceName "/DeviceInstance") as [v | n]; simpl; [| done].
  destruct v; simpl; unfold lift; try done; by destruct (int_of_string _).
Qed.

Lemma items_after_path (bus : Bus) (serviceName sid : string) (s : DbusMonitor)
    (item : string * options) :
  items (after_path bus serviceName sid s item) = items s.
Proof. unfold after_path. destruct (call_async _ _ _); done. Qed.

Lemma items_after_paths (bus : Bus) (serviceName sid : string)
    (ps : list (string * options)) (s : DbusMonitor) :
  items (after_paths bus serviceName sid ps s) = items s.
Proof.
  revert s. induction ps as [| item ps IH]; intros s; [done |].
  unfold after_paths in *. simpl. rewrite IH. apply items_after_path.
Qed.

Lemma has_buckets_bucket_step (service : gmap string (list string))
    (item : string * options) :
  has_buckets service → has_buckets (bucket_step service item).
Proof.
  intros H w Hw. unfold bucket_step.
  destruct (whenToLog item.2) as [[| c w'] |]; try by apply H.
  destruct (service !! String c w') eqn:E; [| by apply H].
  destruct (decide (String c w' = w)) as [-> | Hne].
  - rewrite lookup_insert_eq. eauto.
  - rewrite lookup_insert_ne by done. by apply H.
Qed.

Lemma has_buckets_buckets_after (service : gmap string (list string))
    (ps : list (string * options)) :
  has_buckets service → has_buckets (buckets_after service ps).
Proof.
  revert service. induction ps as [| item ps IH]; intros service H; [done |].
  apply IH. by apply has_buckets_bucket_step.
Qed.

Lemma has_buckets_empty_buckets : has_buckets empty_buckets.
Proof.
  intros w Hw. unfold whentologoptions in Hw.
  repeat (apply elem_of_cons in Hw as [-> | Hw]; [by vm_compute; eauto |]).
  by apply elem_of_nil in Hw.
Qed.

Lemma scan_path_run (bus : Bus) (serviceName sid : string)
    (service : gmap string (list string)) (item : string * options) (s : DbusMonitor) :
  valid_options item.2 = true → has_buckets service →
  scan_path bus serviceName sid service item s
  = (Ok (bucket_step service item), after_path bus serviceName sid s item,
     [after_path bus serviceName sid s item]).
Proof.
  intros Hv Hb. unfold scan_path, valid_options, bucket_step, after_path in *.
  destruct item as [path opts]. simpl in *.
  destruct (whenToLog opts) as [w |] eqn:Ew; simpl.
  - rewrite Hv. simpl. apply bool_decide_eq_true in Hv.
    destruct (Hb w Hv) as [l Hl].
    unfold bind. destruct (call_async bus serviceName path); simpl;
      (destruct w as [| c w']; [by vm_compute in Hv; set_solver |]);
      rewrite Hl; done.
  - unfold bind. destruct (call_async bus serviceName path); done.
Qed.

Lemma scan_path_ok_inv (bus : Bus) (serviceName sid : string)
    (service service' : gmap string (list string)) (item : string * options)
    (s : DbusMonitor) :
  result_of (scan_path bus serviceName sid service item s) = Ok service' →
  service' = bucket_step service item ∧
  state_of (scan_path bus serviceName sid service item s)
  = after_path bus serviceName sid s item.
Proof.
  unfold scan_path, bucket_step, after_path, result_of, state_of.
  destruct item as [path opts]. simpl.
  destruct (negb _); [done |].
  unfold bind.
  destruct (call_async bus serviceName path); simpl;
    (destruct (whenToLog opts) as [[| c w'] |]; simpl;
     [naive_solver | | naive_solver]);
    destruct (service !! String c w'); simpl; naive_solver.
Qed.

Lemma keeps_items_scan_path (bus : Bus) (serviceName sid : string)
    (service : gmap string (list string)) (item : string * options) :
  keeps_items (scan_path bus serviceName sid service item).
Proof.
  unfold scan_path. destruct (negb _); [auto with keeps |].
  apply keeps_items_bind.
  - destruct (call_async _ _ _); auto with keeps.
  - intros _. destruct (whenToLog item.2) as [[| c w'] |]; auto with keeps.
    destruct (service !! _); auto with keeps.
Qed.

Lemma keeps_items_scan_paths (bus : Bus) (serviceName sid : string)
    (ps : list (string * options)) (service : gmap string (list string)) :
  keeps_items (scan_paths bus serviceName sid service ps).
Proof.
  revert service. induction ps as [| item ps IH]; intros service; simpl.
  - apply keeps_items_ret.
  - apply keeps_items_bind; [apply keeps_items_scan_path | intros; apply IH].
Qed.

Lemma scan_paths_run (bus : Bus) (serviceName sid : string)
    (ps : list (string * options)) (service : gmap string (list string))
    (s : DbusMonitor) :
  Forall (fun item => valid_options item.2 = true) ps → has_buckets service →
  result_of (scan_paths bus serviceName sid service ps s)
  = Ok (buckets_after service ps) ∧
  state_of (scan_paths bus serviceName sid service ps s)
  = after_paths bus serviceName sid ps s.
Proof.
  revert service s. induction ps as [| item ps IH]; intros service s Hv Hb; [done |].
  apply Forall_cons in Hv as [Hv1 Hv]. simpl. unfold bind.
  rewrite scan_path_run by done.
  destruct (IH (bucket_step service item) (after_path bus serviceName sid s item) Hv
              (has_buckets_bucket_step _ _ Hb)) as [Hr Hs].
  unfold result_of, state_of in *.
  destruct (scan_paths _ _ _ _ _ _) as [[r s2] h2]. simpl in *. done.
Qed.

Lemma scan_paths_ok_inv (bus : Bus) (serviceName sid : string)
    (ps : list (string * options)) (service service' : gmap string (list string))
    (s : DbusMonitor) :
  result_of (scan_paths bus serviceName sid service ps s) = Ok service' →
  service' = buckets_after service ps ∧
  state_of (scan_paths bus serviceName sid service ps s)
  = after_paths bus serviceName sid ps s.
Proof.
  revert service s. induction ps as [| item ps IH]; intros service s; simpl.
  - unfold result_of. simpl. naive_solver.
  - unfold bind. intros H.
    pose proof (scan_path_ok_inv bus serviceName sid service) as Hp.
    specialize (Hp) with (item := item) (s := s).
    unfold result_of, state_of in *.
    destruct (scan_path bus serviceName sid service item s) as [[[b | e] s1] h1];
      simpl in *; [| done].
    destruct (Hp b eq_refl) as [-> ->].
    specialize (IH (bucket_step service item) (after_path bus serviceName sid s item)).
    destruct (scan_paths _ _ _ _ _ _) as [[r s2] h2]. simpl in *.
    by apply IH.
Qed.

(** *** A scan as a whole *)

Lemma scan_not_in_tree (bus : Bus) (serviceName : string) (s : DbusMonitor) :
  dbusTree s !! class_of serviceName = None ∨ dbusTree s !! class_of serviceName = Some [] →
  scan_dbus_service bus serviceName s = (Ok false, s, []).
Proof.
  intros H. unfold scan_dbus_service, bind, gets. simpl.
  by destruct H as [-> | ->].
Qed.

Ltac enter_scan Htree Hne Hitems Hown :=
  unfold scan_dbus_service, bind, gets; simpl; rewrite Htree;
  match goal with
  | |- context [match ?ps with [] => _ | _ :: _ => _ end] =>
      destruct ps as [| item0 rest0] eqn:Eps; [done |]; rewrite <- Eps in *
  end;
  rewrite bool_decide_eq_false_2 by (rewrite Hitems; by intros [? ?]);
  rewrite Hown; simpl;
  unfold try_except_dbus, scan_body, bind;
  rewrite read_device_instance_run; simpl.

Lemma scan_instance_error (bus : Bus) (serviceName sid : string)
    (ps : list (string * options)) (e : exn) (s : DbusMonitor) :
  dbusTree s !! class_of serviceName = Some ps → ps ≠ [] →
  items s !! serviceName = None →
  get_name_owner bus serviceName = Returned sid →
  device_instance_of bus serviceName (vebusDeviceInstance0 s) = Raise e →
  result_of (scan_dbus_service bus serviceName s)
  = match e with
    | DBusException n => if vanished n then Ok false else Raise e
    | _ => Raise e
    end ∧
  state_of (scan_dbus_service bus serviceName s) = registered serviceName sid s.
Proof.
  intros Htree Hne Hitems Hown Hdi. unfold result_of, state_of.
  enter_scan Htree Hne Hitems Hown. rewrite Hdi.
  destruct e; try done. simpl. destruct (vanished dbus_name); done.
Qed.

Lemma scan_receiver_error (bus : Bus) (serviceName sid : string)
    (ps : list (string * options)) (di : Z) (n : string) (s : DbusMonitor) :
  dbusTree s !! class_of serviceName = Some ps → ps ≠ [] →
  items s !! serviceName = None →
  get_name_owner bus serviceName = Returned sid →
  device_instance_of bus serviceName (vebusDeviceInstance0 s) = Ok di →
  Forall (fun item => valid_options item.2 = true) ps →
  add_signal_receiver bus serviceName = Some n →
  result_of (scan_dbus_service bus serviceName s)
  = (if vanished n then Ok false else Raise (DBusException n)) ∧
  state_of (scan_dbus_service bus serviceName s)
  = after_paths bus serviceName sid ps (registered serviceName sid s).
Proof.
  intros Htree Hne Hitems Hown Hdi Hv Hrecv. unfold result_of, state_of.
  enter_scan Htree Hne Hitems Hown. rewrite Hdi.
  destruct (scan_paths_run bus serviceName sid ps empty_buckets
              (registered serviceName sid s) Hv has_buckets_empty_buckets) as [Hr Hs].
  unfold result_of, state_of, registered in Hr, Hs.
  destruct (scan_paths _ _ _ _ _ _) as [[r s2] h2]. simpl in *. subst r s2.
  rewrite Hrecv. simpl. destruct (vanished n); done.
Qed.

Lemma scan_published (bus : Bus) (serviceName sid : string)
    (ps : list (string * options)) (di : Z) (s : DbusMonitor) :
  dbusTree s !! class_of serviceName = Some ps → ps ≠ [] →
  items s !! serviceName = None →
  get_name_owner bus serviceName = Returned sid →
  device_instance_of bus serviceName (vebusDeviceInstance0 s) = Ok di →
  Forall (fun item => valid_options item.2 = true) ps →
  add_signal_receiver bus serviceName = None →
  result_of (scan_dbus_service bus serviceName s) = Ok true ∧
  state_of (scan_dbus_service bus serviceName s) = published bus serviceName sid di ps s.
Proof.
  intros Htree Hne Hitems Hown Hdi Hv Hrecv. unfold result_of, state_of.
  enter_scan Htree Hne Hitems Hown. rewrite Hdi.
  destruct (scan_paths_run bus serviceName sid ps empty_buckets
              (registered serviceName sid s) Hv has_buckets_empty_buckets) as [Hr Hs].
  unfold result_of, state_of, registered in Hr, Hs.
  destruct (scan_paths _ _ _ _ _ _) as [[r s2] h2]. simpl in *. subst r s2.
  rewrite Hrecv. simpl. done.
Qed.

Lemma scan_ok_inv (bus : Bus) (serviceName : string) (s : DbusMonitor) :
  result_of (scan_dbus_service bus serviceName s) = Ok true →
  ∃ ps sid di,
    dbusTree s !! class_of serviceName = Some ps ∧ ps ≠ [] ∧
    items s !! serviceName = None ∧
    get_name_owner bus serviceName = Returned sid ∧
    device_instance_of bus serviceName (vebusDeviceInstance0 s) = Ok di ∧
    add_signal_receiver bus serviceName = None ∧
    state_of (scan_dbus_service bus serviceName s) = published bus serviceName sid di ps s.
Proof.
  unfold result_of, state_of, scan_dbus_service, bind, gets. simpl.
  destruct (dbusTree s !! class_of serviceName) as [ps |] eqn:Htree; [| done].
  destruct ps as [| item0 rest0] eqn:Eps; [done |]. rewrite <- Eps in *.
  case_bool_decide as Hin; [done |].
  destruct (get_name_owner bus serviceName) as [sid | n] eqn:Hown; [| done]. simpl.
  unfold try_except_dbus, scan_body, bind.
  rewrite read_device_instance_run. simpl.
  destruct (device_instance_of bus serviceName (vebusDeviceInstance0 s))
    as [di | e] eqn:Hdi.
  - pose proof (scan_paths_ok_inv bus serviceName sid ps empty_buckets) as Hp.
    specialize Hp with (s := registered serviceName sid s).
    unfold result_of, state_of, registered in Hp.
    destruct (scan_paths _ _ _ _ _ _) as [[[b | e] s2] h2]; simpl in *.
    + destruct (Hp b eq_refl) as [-> ->].
      destruct (add_signal_receiver bus serviceName) as [n |] eqn:Hrecv; simpl.
      * destruct (vanished n); done.
      * intros _. exists ps, sid, di. repeat split; try done.
        -- subst ps. done.
        -- destruct (items s !! serviceName) eqn:E; [| done]. exfalso. eauto.
    + destruct e; try done. simpl. destruct (vanished dbus_name); done.
  - destruct e; try done. simpl. destruct (vanished dbus_name); done.
Qed.

(** *** Where a scan writes the registry *)

Lemma scan_writes (bus : Bus) (serviceName : string) (s : DbusMonitor) :
  (result_of (scan_dbus_service bus serviceName s) = Ok true ∧
   items s !! serviceName = None ∧
   ∃ W, writes_of (scan_dbus_service bus serviceName s)
        = W ++ [state_of (scan_dbus_service bus serviceName s)] ∧
        Forall (fun s' => items s' = items s) W)
  ∨
  (result_of (scan_dbus_service bus serviceName s) ≠ Ok true ∧
   items (state_of (scan_dbus_service bus serviceName s)) = items s ∧
   Forall (fun s' => items s' = items s) (writes_of (scan_dbus_service bus serviceName s)) ∧
   (writes_of (scan_dbus_service bus serviceName s) = [] ∨ items s !! serviceName = None)).
Proof.
  unfold result_of, state_of, writes_of, scan_dbus_service, bind, gets. simpl.
  destruct (dbusTree s !! class_of serviceName) as [ps |] eqn:Htree;
    [| right; repeat split; auto].
  destruct ps as [| item0 rest0] eqn:Eps; [right; repeat split; auto |].
  rewrite <- Eps in *. clear Eps.
  case_bool_decide as Hin; [right; repeat split; auto |].
  assert (items s !! serviceName = None) as Hnone.
  { destruct (items s !! serviceName) eqn:E; [| done]. exfalso. eauto. }
  destruct (get_name_owner bus serviceName) as [sid | n] eqn:Hown;
    [| right; repeat split; auto]. simpl.
  unfold try_except_dbus, scan_body, bind.
  rewrite read_device_instance_run. simpl.
  set (s1 := set_serviceIds _ s).
  assert (items s1 = items s) as Hs1 by done.
  destruct (device_instance_of bus serviceName (vebusDeviceInstance0 s))
    as [di | e] eqn:Hdi.
  - destruct (keeps_items_scan_paths bus serviceName sid ps empty_buckets s1)
      as [Hs2 Hw2].
    unfold state_of, writes_of in Hs2, Hw2.
    destruct (scan_paths _ _ _ _ _ _) as [[[b | e] s2] h2]; simpl in *.
    + destruct (add_signal_receiver bus serviceName) as [n |] eqn:Hrecv; simpl.
      * right. destruct (vanished n); simpl; rewrite ?app_nil_r;
          (repeat split; [done | congruence | | by right]);
          (constructor; [done |]); eapply Forall_impl; [exact Hw2 | | exact Hw2 |];
          simpl; congruence.
      * left. repeat split; [done |].
        exists (s1 :: h2 ++ [push_receiver serviceName s2]). split.
        -- rewrite ?app_nil_r. simpl. by rewrite <- app_assoc.
        -- constructor; [done |]. apply Forall_app. split.
           ++ eapply Forall_impl; [exact Hw2 |]. simpl. congruence.
           ++ constructor; [| constructor]. simpl. congruence.
    + assert (Forall (fun s' => items s' = items s) (s1 :: h2)) as Hall.
      { constructor; [done |]. eapply Forall_impl; [exact Hw2 |]. simpl. congruence. }
      right. destruct e as [| | | | | n]; simpl; rewrite ?app_nil_r;
        try (repeat split; [done | congruence | done | by right]).
      destruct (vanished n); simpl; rewrite ?app_nil_r;
        (repeat split; [done | congruence | done | by right]).
  - right. destruct e as [| | | | | n]; simpl;
      try (split; [done | split; [done | split; [by repeat constructor | by right]]]).
    destruct (vanished n); simpl;
      (split; [done | split; [done | split; [by repeat constructor | by right]]]).
Qed.

Lemma get_service_list_items (classfilter : option string) (s s' : DbusMonitor) :
  items s' = items s →
  get_service_list classfilter s' = get_service_list classfilter s.
Proof.
  intros H. unfold get_service_list. rewrite H.
  generalize ((map_to_list (items s)).*1).
  generalize (@Ok (gmap string Z) ∅).
  intros acc l. revert acc. induction l as [| n l IH]; intros acc; [done |].
  simpl. rewrite <- IH. f_equal.
  unfold get_device_instance. by rewrite H.
Qed.

Lemma get_value_untracked (serviceName objectPath : string) (default_value : value)
    (s : DbusMonitor) :
  items s !! serviceName = None →
  get_value serviceName objectPath default_value s = Ok default_value.
Proof. intros H. unfold get_value. by rewrite H. Qed.


(** *** Bus failures during a scan *)

Lemma device_instance_of_dbus_error (bus : Bus) (serviceName n : string) (flag : bool) :
  (String.eqb serviceName "com.victronenergy.vebus.ttyO1" && flag)%bool = false →
  import_get_value bus serviceName "/DeviceInstance" = DBusError n →
  device_instance_of bus serviceName flag = Raise (DBusException n).
Proof. intros Hl Hi. unfold device_instance_of. by rewrite Hl, Hi. Qed.

(** C7, as the code has it.  When reading the device instance or registering
    the signal receiver fails with [ServiceUnknown] or [Disconnected], the
    scan returns [False] and the registry is as before; another bus error
    from these two steps is raised to the caller, again with the registry as
    before; and whatever [call_async] raises for a path, the scan still
    completes and returns [True]. *)
Theorem scan_bus_failures (bus : Bus) (serviceName sid : string)
    (ps : list (string * options)) (s : DbusMonitor) :
  dbusTree s !! class_of serviceName = Some ps → ps ≠ [] →
  items s !! serviceName = None →
  get_name_owner bus serviceName = Returned sid →
  Forall (fun item => valid_options item.2 = true) ps →
  (∀ n,
     (String.eqb serviceName "com.victronenergy.vebus.ttyO1"
      && vebusDeviceInstance0 s)%bool = false →
     import_get_value bus serviceName "/DeviceInstance" = DBusError n →
     result_of (scan_dbus_service bus serviceName s)
     = (if vanished n then Ok false else Raise (DBusException n)) ∧
     items (state_of (scan_dbus_service bus serviceName s)) = items s) ∧
  (∀ di n,
     device_instance_of bus serviceName (vebusDeviceInstance0 s) = Ok di →
     add_signal_receiver bus serviceName = Some n →
     result_of (scan_dbus_service bus serviceName s)
     = (if vanished n then Ok false else Raise (DBusException n)) ∧
     items (state_of (scan_dbus_service bus serviceName s)) = items s) ∧
  (∀ di,
     device_instance_of bus serviceName (vebusDeviceInstance0 s) = Ok di →
     add_signal_receiver bus serviceName = None →
     result_of (scan_dbus_service bus serviceName s) = Ok true).
Proof.
  intros Htree Hne Hitems Hown Hv. split; [| split].
  - intros n Hl Hi.
    destruct (scan_instance_error bus serviceName sid ps (DBusException n) s)
      as [Hr Hs]; try done.
    { by apply device_instance_of_dbus_error. }
    rewrite Hr, Hs. done.
  - intros di n Hdi Hrecv.
    destruct (scan_receiver_error bus serviceName sid ps di n s) as [Hr Hs]; try done.
    rewrite Hr, Hs. split; [done |]. by rewrite items_after_paths.
  - intros di Hdi Hrecv.
    by destruct (scan_published bus serviceName sid ps di s) as [Hr _].
Qed.

(** *** The device instance *)

(** C9, as the code has it.  The device instance is read during the scan
    and is what the published service carries.  It is 0 under the legacy
    override, whatever the bus holds; otherwise it is 0 when the read yields
    [None] and [int(value)] for any other value, and when [int] raises the
    scan raises the same exception. *)
Theorem device_instance_read (bus : Bus) (serviceName : string) (s : DbusMonitor) :
  (serviceName = "com.victronenergy.vebus.ttyO1" ∧ vebusDeviceInstance0 s = true →
   read_device_instance bus serviceName s = (Ok 0, s, [])) ∧
  (¬ (serviceName = "com.victronenergy.vebus.ttyO1" ∧ vebusDeviceInstance0 s = true) →
   (import_get_value bus serviceName "/DeviceInstance" = Returned VNone →
    read_device_instance bus serviceName s = (Ok 0, s, [])) ∧
   (∀ v, import_get_value bus serviceName "/DeviceInstance" = Returned v →
         v ≠ VNone →
         read_device_instance bus serviceName s = (int v, s, []))) ∧
  (result_of (scan_dbus_service bus serviceName s) = Ok true →
   ∃ svc, items (state_of (scan_dbus_service bus serviceName s)) !! serviceName = Some svc ∧
          result_of (read_device_instance bus serviceName s) = Ok (deviceInstance svc)) ∧
  (∀ ps sid v e,
     dbusTree s !! class_of serviceName = Some ps → ps ≠ [] →
     items s !! serviceName = None →
     get_name_owner bus serviceName = Returned sid →
     ¬ (serviceName = "com.victronenergy.vebus.ttyO1" ∧ vebusDeviceInstance0 s = true) →
     import_get_value bus serviceName "/DeviceInstance" = Returned v →
     v ≠ VNone → int v = Raise e →
     result_of (scan_dbus_service bus serviceName s) = Raise e ∧
     items (state_of (scan_dbus_service bus serviceName s)) = items s).
Proof.
  assert (∀ flag,
    ¬ (serviceName = "com.victronenergy.vebus.ttyO1" ∧ flag = true) →
    (String.eqb serviceName "com.victronenergy.vebus.ttyO1" && flag)%bool = false)
    as Hlegacy.
  { intros flag Hn. apply andb_false_iff.
    destruct (String.eqb_spec serviceName "com.victronenergy.vebus.ttyO1");
      destruct flag; auto. exfalso. auto. }
  split; [| split; [| split]].
  - intros [-> Hf]. rewrite read_device_instance_run. unfold device_instance_of.
    by rewrite Hf.
  - intros Hn. split.
    + intros Hi. rewrite read_device_instance_run. unfold device_instance_of.
      by rewrite (Hlegacy _ Hn), Hi.
    + intros v Hi Hv. rewrite read_device_instance_run. unfold device_instance_of.
      rewrite (Hlegacy _ Hn), Hi. by destruct v.
  - intros Hr.
    destruct (scan_ok_inv bus serviceName s Hr)
      as (ps & sid & di & _ & _ & _ & _ & Hdi & _ & Hst).
    exists (scanned_service serviceName sid di ps). split.
    + rewrite Hst. unfold published. simpl. apply lookup_insert_eq.
    + rewrite read_device_instance_run. done.
  - intros ps sid v e Htree Hne Hitems Hown Hn Hi Hv He.
    destruct (scan_instance_error bus serviceName sid ps e s) as [Hr Hs]; try done.
    { unfold device_instance_of. rewrite (Hlegacy _ Hn), Hi. by destruct v. }
    rewrite Hr, Hs. split; [| done].
    destruct v; simpl in He; try done.
    destruct (int_of_string _); [done |]. by injection He as <-.
Qed.

(** *** The cache: what a scan and a completed fetch write *)

Lemma cached_store_path_eq (sid path : string) (v : value) (opts : options)
    (s : DbusMonitor) :
  is_Some (serviceIds s !! sid) →
  cached sid path (store_path sid path v opts s) = Some (v, opts).
Proof.
  intros [d Hd]. unfold cached, store_path. simpl.
  rewrite lookup_alter_eq, Hd. simpl. apply lookup_insert_eq.
Qed.

Lemma cached_store_path_ne (sid path sid' path' : string) (v : value) (opts : options)
    (s : DbusMonitor) :
  sid ≠ sid' ∨ path ≠ path' →
  cached sid' path' (store_path sid path v opts s) = cached sid' path' s.
Proof.
  intros Hne. unfold cached, store_path. simpl.
  destruct (decide (sid = sid')) as [<- | Hs].
  - rewrite lookup_alter_eq. destruct (serviceIds s !! sid); [| done]. simpl.
    destruct Hne as [? | ?]; [done |]. by apply lookup_insert_ne.
  - by rewrite lookup_alter_ne.
Qed.

Lemma serviceIds_store_path (sid path sid' : string) (v : value) (opts : options)
    (s : DbusMonitor) :
  is_Some (serviceIds s !! sid') →
  is_Some (serviceIds (store_path sid path v opts s) !! sid').
Proof.
  intros [d Hd]. unfold store_path. simpl.
  destruct (decide (sid = sid')) as [<- | Hs].
  - rewrite lookup_alter_eq, Hd. simpl. eauto.
  - rewrite lookup_alter_ne by done. eauto.
Qed.

Lemma serviceIds_after_paths (bus : Bus) (serviceName sid sid' : string)
    (ps : list (string * options)) (s : DbusMonitor) :
  is_Some (serviceIds s !! sid') →
  is_Some (serviceIds (after_paths bus serviceName sid ps s) !! sid').
Proof.
  revert s. induction ps as [| item ps IH]; intros s H; [done |].
  unfold after_paths in *. simpl. apply IH. unfold after_path.
  destruct (call_async _ _ _); [by apply serviceIds_store_path | done].
Qed.

Lemma cached_after_paths_unwritten (bus : Bus) (serviceName sid sid' path : string)
    (ps : list (string * options)) (s : DbusMonitor) :
  path ∉ ps.*1 ∨ call_async bus serviceName path = None →
  cached sid' path (after_paths bus serviceName sid ps s) = cached sid' path s.
Proof.
  revert s. induction ps as [| item ps IH]; intros s H; [done |].
  unfold after_paths in *. simpl. rewrite IH.
  - unfold after_path. destruct (call_async bus serviceName item.1) eqn:E; [| done].
    apply cached_store_path_ne. right. intros Heq.
    destruct H as [H | H]; [| congruence]. apply H. simpl. rewrite <- Heq. by left.
  - destruct H as [H | H]; [left | by right].
    intros Hin. apply H. simpl. by right.
Qed.

Lemma cached_after_paths_null (bus : Bus) (serviceName sid path n : string)
    (opts : options) (ps : list (string * options)) (s : DbusMonitor) :
  NoDup ps.*1 → (path, opts) ∈ ps →
  call_async bus serviceName path = Some n →
  is_Some (serviceIds s !! sid) →
  cached sid path (after_paths bus serviceName sid ps s) = Some (VNone, opts).
Proof.
  revert s. induction ps as [| item ps IH]; intros s Hnd Hin Hc Hs.
  - by apply elem_of_nil in Hin.
  - simpl in Hnd. apply NoDup_cons in Hnd as [Hnotin Hnd].
    apply elem_of_cons in Hin as [<- | Hin].
    + unfold after_paths. simpl.
      change (foldl (after_path bus serviceName sid) ?s0 ps)
        with (after_paths bus serviceName sid ps s0).
      rewrite cached_after_paths_unwritten by (by left).
      unfold after_path. simpl. rewrite Hc. by apply cached_store_path_eq.
    + unfold after_paths. simpl.
      change (foldl (after_path bus serviceName sid) ?s0 ps)
        with (after_paths bus serviceName sid ps s0).
      apply IH; try done. unfold after_path.
      destruct (call_async bus serviceName item.1);
        [by apply serviceIds_store_path | done].
Qed.

Lemma async_calls_after_paths_mono (bus : Bus) (serviceName sid : string)
    (ps : list (string * options)) (s : DbusMonitor) (c : AsyncCall) :
  c ∈ async_calls s → c ∈ async_calls (after_paths bus serviceName sid ps s).
Proof.
  revert s. induction ps as [| item ps IH]; intros s H; [done |].
  unfold after_paths in *. simpl. apply IH. unfold after_path.
  destruct (call_async _ _ _); [done |]. simpl. apply elem_of_app. by left.
Qed.

Lemma async_calls_after_paths (bus : Bus) (serviceName sid path : string)
    (opts : options) (ps : list (string * options)) (s : DbusMonitor) :
  (path, opts) ∈ ps → call_async bus serviceName path = None →
  {| call_service := serviceName; call_path := path;
     call_serviceId := sid; call_options := opts |}
  ∈ async_calls (after_paths bus serviceName sid ps s).
Proof.
  revert s. induction ps as [| item ps IH]; intros s Hin Hc.
  - by apply elem_of_nil in Hin.
  - apply elem_of_cons in Hin as [<- | Hin].
    + unfold after_paths. simpl. apply async_calls_after_paths_mono.
      unfold after_path. simpl. rewrite Hc. simpl. apply elem_of_app. right. by left.
    + unfold after_paths in *. simpl. by apply IH.
Qed.

Lemma set_value_callback_run (sid path : string) (opts : options) (v : value)
    (s : DbusMonitor) :
  is_Some (serviceIds s !! sid) →
  _set_value_callback unwrap_dbus_value sid path opts v s
  = (Ok tt, store_path sid path (unwrap_dbus_value v) opts s,
     [store_path sid path (unwrap_dbus_value v) opts s]).
Proof. intros [d Hd]. unfold _set_value_callback, bind, gets. simpl. by rewrite Hd. Qed.

Lemma set_value_error_run (sid path : string) (opts : options) (s : DbusMonitor) :
  is_Some (serviceIds s !! sid) →
  _set_value_error sid path opts s
  = (Ok tt, store_path sid path VNone opts s, [store_path sid path VNone opts s]).
Proof. intros [d Hd]. unfold _set_value_error, bind, gets. simpl. by rewrite Hd. Qed.

Lemma set_value_callback_untracked (sid path : string) (opts : options) (v : value)
    (s : DbusMonitor) :
  serviceIds s !! sid = None →
  _set_value_callback unwrap_dbus_value sid path opts v s = (Raise (KeyError sid), s, []).
Proof. intros Hd. unfold _set_value_callback, bind, gets. simpl. by rewrite Hd. Qed.

Lemma set_value_error_untracked (sid path : string) (opts : options) (s : DbusMonitor) :
  serviceIds s !! sid = None →
  _set_value_error sid path opts s = (Raise (KeyError sid), s, []).
Proof. intros Hd. unfold _set_value_error, bind, gets. simpl. by rewrite Hd. Qed.

Lemma get_value_cached (serviceName objectPath : string) (default_value v : value)
    (opts : options) (svc : service) (s : DbusMonitor) :
  items s !! serviceName = Some svc →
  cached (serviceId svc) objectPath s = Some (v, opts) →
  get_value serviceName objectPath default_value s = Ok v.
Proof.
  intros Hi Hc. unfold get_value, cached in *. rewrite Hi.
  destruct (serviceIds s !! serviceId svc); [| done]. simpl in Hc. by rewrite Hc.
Qed.

Lemma published_items (bus : Bus) (serviceName sid : string) (di : Z)
    (ps : list (string * options)) (s : DbusMonitor) :
  items (published bus serviceName sid di ps s) !! serviceName
  = Some (scanned_service serviceName sid di ps).
Proof. unfold published. simpl. apply lookup_insert_eq. Qed.

Lemma published_serviceIds (bus : Bus) (serviceName sid : string) (di : Z)
    (ps : list (string * options)) (s : DbusMonitor) :
  is_Some (serviceIds (published bus serviceName sid di ps s) !! sid).
Proof.
  unfold published. simpl. apply serviceIds_after_paths.
  unfold registered. simpl. rewrite lookup_insert_eq. eauto.
Qed.

Lemma published_cached (bus : Bus) (serviceName sid path : string) (di : Z)
    (ps : list (string * options)) (s : DbusMonitor) :
  cached sid path (published bus serviceName sid di ps s)
  = cached sid path (after_paths bus serviceName sid ps (registered serviceName sid s)).
Proof. done. Qed.

Lemma registered_cached (serviceName sid path : string) (s : DbusMonitor) :
  cached sid path (registered serviceName sid s) = None.
Proof. unfold cached, registered. simpl. by rewrite lookup_insert_eq. Qed.

(** C4, as the code has it.  After a scan that returned [True], the bus
    identity of the service has a cache dictionary, and each path of the
    schema is in one of two situations: its [GetValue] request is in flight
    and it has no cache entry yet, the entry being written by the
    completion (the unwrapped value on success, [None] on failure); or
    [call_async] raised and the entry is already there, holding [None]. *)
Theorem scan_fetches_every_schema_path (bus : Bus) (serviceName path : string)
    (opts : options) (ps : list (string * options)) (s : DbusMonitor) :
  result_of (scan_dbus_service bus serviceName s) = Ok true →
  dbusTree s !! class_of serviceName = Some ps →
  NoDup ps.*1 → (path, opts) ∈ ps →
  ∃ svc,
    items (state_of (scan_dbus_service bus serviceName s)) !! serviceName = Some svc ∧
    is_Some (serviceIds (state_of (scan_dbus_service bus serviceName s)) !! serviceId svc) ∧
    match call_async bus serviceName path with
    | None =>
        cached (serviceId svc) path (state_of (scan_dbus_service bus serviceName s)) = None ∧
        {| call_service := serviceName; call_path := path;
           call_serviceId := serviceId svc; call_options := opts |}
        ∈ async_calls (state_of (scan_dbus_service bus serviceName s)) ∧
        (∀ v, cached (serviceId svc) path
                (state_of (_set_value_callback unwrap_dbus_value (serviceId svc) path opts v
                             (state_of (scan_dbus_service bus serviceName s))))
              = Some (unwrap_dbus_value v, opts)) ∧
        cached (serviceId svc) path
          (state_of (_set_value_error (serviceId svc) path opts
                       (state_of (scan_dbus_service bus serviceName s))))
        = Some (VNone, opts)
    | Some _ =>
        cached (serviceId svc) path (state_of (scan_dbus_service bus serviceName s))
        = Some (VNone, opts)
    end.
Proof.
  intros Hr Htree Hnd Hin.
  destruct (scan_ok_inv bus serviceName s Hr)
    as (ps' & sid & di & Htree' & _ & _ & _ & _ & _ & Hst).
  assert (ps' = ps) as -> by congruence.
  rewrite Hst. exists (scanned_service serviceName sid di ps). simpl.
  pose proof (published_serviceIds bus serviceName sid di ps s) as Hsid.
  split; [apply published_items |]. split; [done |].
  destruct (call_async bus serviceName path) as [n |] eqn:Hc.
  - rewrite published_cached. eapply cached_after_paths_null; try done.
    unfold registered. simpl. rewrite lookup_insert_eq. eauto.
  - split; [| split; [| split]].
    + rewrite published_cached, cached_after_paths_unwritten by (by right).
      apply registered_cached.
    + unfold published. simpl. by apply async_calls_after_paths.
    + intros v. rewrite set_value_callback_run by done.
      by apply cached_store_path_eq.
    + rewrite set_value_error_run by done. by apply cached_store_path_eq.
Qed.

(** *** [get_values] and [get_values_for_service] *)

Lemma dict_of_app (l1 l2 : list (string * value)) :
  dict_of (l1 ++ l2) = dict_of l2 ∪ dict_of l1.
Proof. unfold dict_of. by rewrite reverse_app, list_to_map_app. Qed.

Lemma dict_of_nil : dict_of [] = ∅.
Proof. done. Qed.

Lemma dict_of_cons (kv : string * value) (l : list (string * value)) :
  dict_of (kv :: l) = dict_of l ∪ {[kv.1 := kv.2]}.
Proof.
  change (kv :: l) with ([kv] ++ l). by rewrite dict_of_app.
Qed.

Lemma gather_app {A B} (f : A -> outcome (list B)) (l1 l2 : list A) :
  gather f (l1 ++ l2)
  = and_then (gather f l1) (fun h => and_then (gather f l2) (fun t => Ok (h ++ t))).
Proof.
  induction l1 as [| x l1 IH]; simpl.
  - by destruct (gather f l2).
  - destruct (f x) as [hx | e]; simpl; [| done]. rewrite IH.
    destruct (gather f l1) as [h | e]; simpl; [| done].
    destruct (gather f l2) as [t | e]; simpl; [| done].
    by rewrite app_assoc.
Qed.


Lemma emit_path_entry (converter : option (string -> value -> outcome value))
    (svc : service) (s : DbusMonitor) (result : gmap string value) (path : string) :
  emit_path round_float converter svc (deviceInstance svc) s result path
  = and_then (entry_of round_float converter s svc path)
      (fun es => Ok (dict_of es ∪ result)).
Proof.
  unfold emit_path, entry_of, entry_with.
  destruct (cached (serviceId svc) path s) as [[v opts] |];
    [| simpl; by rewrite dict_of_nil, (left_id_L ∅ (∪))].
  assert (∀ v1,
    and_then (rounded round_float opts v1)
      (fun v2 => Ok (<[code opts +:+ "[" +:+ str (deviceInstance svc) +:+ "]" := v2]>
                       result))
    = and_then
        (and_then (rounded round_float opts v1)
           (fun v2 => Ok [(code opts +:+ "[" +:+ str (deviceInstance svc) +:+ "]", v2)]))
        (fun es => Ok (dict_of es ∪ result))) as Hround.
  { intros v1. destruct (rounded round_float opts v1) as [v2 | e]; simpl; [| done].
    rewrite dict_of_cons, dict_of_nil, (left_id_L ∅ (∪)). simpl.
    by rewrite <- insert_union_singleton_l. }
  destruct v; simpl;
    try (destruct (converted converter opts _) as [v1 | e]; simpl; [apply Hround | done]).
  by rewrite dict_of_nil, (left_id_L ∅ (∪)).
Qed.

Lemma for_each_emit (converter : option (string -> value -> outcome value))
    (svc : service) (s : DbusMonitor) (l : list string) (result : gmap string value) :
  for_each (emit_path round_float converter svc (deviceInstance svc) s) result l
  = and_then (gather (entry_of round_float converter s svc) l)
      (fun es => Ok (dict_of es ∪ result)).
Proof.
  revert result. induction l as [| p l IH]; intros result; simpl.
  - by rewrite dict_of_nil, (left_id_L ∅ (∪)).
  - rewrite emit_path_entry.
    destruct (entry_of round_float converter s svc p) as [h | e]; simpl; [| done].
    rewrite IH.
    destruct (gather (entry_of round_float converter s svc) l) as [t | e]; simpl;
      [| done].
    by rewrite dict_of_app, <- (assoc_L (∪)).
Qed.

Lemma service_getitem_category (svc : service) (category : string) :
  category ∈ whentologoptions → has_buckets (buckets svc) →
  service_getitem svc category = Ok (default [] (buckets svc !! category)).
Proof.
  intros Hc Hb. destruct (Hb category Hc) as [l Hl].
  unfold service_getitem. rewrite Hl. simpl.
  unfold whentologoptions in Hc.
  repeat (apply elem_of_cons in Hc as [-> | Hc]; [done |]).
  by apply elem_of_nil in Hc.
Qed.

Lemma for_each_category (converter : option (string -> value -> outcome value))
    (svc : service) (s : DbusMonitor) (categoryfilter : list string)
    (result : gmap string value) :
  has_buckets (buckets svc) →
  Forall (fun category => category ∈ whentologoptions) categoryfilter →
  for_each
    (fun result category =>
       and_then (service_getitem svc category) (fun l =>
       for_each (emit_path round_float converter svc (deviceInstance svc) s) result l))
    result categoryfilter
  = and_then (service_entries round_float categoryfilter converter s svc)
      (fun es => Ok (dict_of es ∪ result)).
Proof.
  intros Hb Hf. revert result.
  induction categoryfilter as [| category cf IH]; intros result.
  - simpl. by rewrite dict_of_nil, (left_id_L ∅ (∪)).
  - apply Forall_cons in Hf as [Hc Hf]. simpl.
    rewrite service_getitem_category by done. simpl. rewrite for_each_emit.
    unfold service_entries, service_entries_with, visited_paths. simpl.
    rewrite gather_app.
    fold (entry_of round_float converter s svc).
    destruct (gather (entry_of round_float converter s svc)
                (default [] (buckets svc !! category))) as [h | e]; simpl; [| done].
    rewrite (IH Hf). unfold service_entries, service_entries_with, visited_paths.
    fold (entry_of round_float converter s svc).
    destruct (gather (entry_of round_float converter s svc) _) as [t | e]; simpl;
      [| done].
    by rewrite dict_of_app, <- (assoc_L (∪)).
Qed.





(** *** Tracked services keep their four category lists *)

Lemma wf_state_new_monitor (tree : gmap string (list (string * options)))
    (valueChanged deviceAdded deviceRemoved instance0 : bool) :
  wf_state (new_monitor tree valueChanged deviceAdded deviceRemoved instance0).
Proof. intros n svc H. simpl in H. by rewrite lookup_empty in H. Qed.

Lemma wf_state_items (s s' : DbusMonitor) :
  items s' = items s → wf_state s → wf_state s'.
Proof. intros H Hwf n svc Hn. rewrite H in Hn. by eapply Hwf. Qed.

Lemma wf_state_scan (bus : Bus) (serviceName : string) (s : DbusMonitor) :
  wf_state s → wf_state (state_of (scan_dbus_service bus serviceName s)).
Proof.
  intros Hwf.
  destruct (scan_writes bus serviceName s) as [(Hr & _) | (_ & Hi & _)].
  - destruct (scan_ok_inv bus serviceName s Hr)
      as (ps & sid & di & _ & _ & _ & _ & _ & _ & ->).
    intros n svc. unfold published. simpl. rewrite items_after_paths. simpl.
    destruct (decide (serviceName = n)) as [<- | Hne].
    + rewrite lookup_insert_eq. intros [= <-]. simpl.
      apply has_buckets_buckets_after, has_buckets_empty_buckets.
    + rewrite lookup_insert_ne by done. apply Hwf.
  - by eapply wf_state_items.
Qed.

Lemma keeps_items_set_value_callback (sid path : string) (opts : options) (v : value) :
  keeps_items (_set_value_callback unwrap_dbus_value sid path opts v).
Proof.
  apply keeps_items_bind; [auto with keeps |]. intros sids.
  destruct (sids !! sid); auto with keeps.
Qed.

Lemma keeps_items_set_value_error (sid path : string) (opts : options) :
  keeps_items (_set_value_error sid path opts).
Proof.
  apply keeps_items_bind; [auto with keeps |]. intros sids.
  destruct (sids !! sid); auto with keeps.
Qed.

Lemma keeps_items_handler_value_changes (changes : Changes) (path senderId : string) :
  keeps_items (handler_value_changes unwrap_dbus_value changes path senderId).
Proof.
  apply keeps_items_bind; [auto with keeps |]. intros sids.
  destruct (sids !! senderId) as [d |]; [| auto with keeps].
  destruct (paths d !! path); [| auto with keeps].
  apply keeps_items_bind; [auto with keeps |]. intros _.
  apply keeps_items_bind; [auto with keeps |]. intros cb.
  destruct cb; auto with keeps.
Qed.

Lemma keeps_items_execute_value_changes (serviceId objectPath : string)
    (changes : Changes) (opts : options) :
  keeps_items (_execute_value_changes serviceId objectPath changes opts).
Proof.
  apply keeps_items_bind; [auto with keeps |]. intros sids.
  destruct (sids !! serviceId); [| auto with keeps].
  apply keeps_items_bind; [auto with keeps |]. intros callback.
  apply keeps_items_bind; [auto with keeps |]. intros i.
  destruct callback; auto with keeps.
Qed.

Lemma keeps_items_dbus_name_owner_changed (name oldowner newowner : string) :
  keeps_items (dbus_name_owner_changed name oldowner newowner).
Proof. unfold dbus_name_owner_changed. destruct (negb _); auto with keeps. Qed.

Lemma wf_state_keeps_items {A} (m : M A) (s : DbusMonitor) :
  keeps_items m → wf_state s → wf_state (state_of (m s)).
Proof. intros Hk. apply wf_state_items, Hk. Qed.

Lemma wf_state_process_name_owner_changed (bus : Bus) (name oldowner newowner : string)
    (s : DbusMonitor) :
  wf_state s →
  wf_state (state_of (_process_name_owner_changed bus name oldowner newowner s)).
Proof.
  intros Hwf. unfold _process_name_owner_changed.
  destruct (negb _).
  - unfold bind at 1. pose proof (wf_state_scan bus name s Hwf) as Hscan.
    unfold state_of in *.
    destruct (scan_dbus_service bus name s) as [[[b | e] s1] h1]; simpl in *; [| done].
    match goal with
    | |- wf_state (let (_, _) := ?m s1 in _).1.2 =>
        assert (keeps_items m) as Hk
    end.
    { apply keeps_items_bind; [auto with keeps |]. intros cb.
      destruct (b && cb)%bool; [| auto with keeps].
      apply keeps_items_bind; auto with keeps. }
    match goal with
    | |- wf_state (let (_, _) := ?m s1 in _).1.2 =>
        pose proof (wf_state_keeps_items m s1 Hk Hscan) as Hfin;
        unfold state_of in Hfin; destruct (m s1) as [[r s2] h2]
    end.
    done.
  - unfold bind, gets, state_of. simpl.
    destruct (items s !! name) as [svc |] eqn:En; [| done].
    assert (wf_state (set_items (delete name) s)) as Hdel.
    { intros n svc' H. simpl in H. apply lookup_delete_Some in H as [_ H].
      by eapply Hwf. }
    destruct (serviceIds s !! serviceId svc); simpl; [| done].
    destruct (deviceRemovedCallback s); simpl.
    + intros n svc' H. simpl in H. by eapply Hdel.
    + intros n svc' H. simpl in H. by eapply Hdel.
Qed.

(** *** Paths without a category *)

Lemma empty_buckets_lists (category : string) (l : list string) :
  empty_buckets !! category = Some l → l = [].
Proof.
  unfold empty_buckets, whentologoptions. simpl.
  rewrite !lookup_insert_Some, lookup_empty. intros H.
  repeat (destruct H as [[_ <-] | [_ H]]; [done |]). done.
Qed.







(** *** Completions and signals for an identity that is not tracked *)

Lemma handler_value_changes_untracked (changes : Changes) (path senderId : string)
    (s : DbusMonitor) :
  serviceIds s !! senderId = None →
  handler_value_changes unwrap_dbus_value changes path senderId s
  = (Raise (KeyError senderId), s, []).
Proof. intros H. unfold handler_value_changes, bind, gets. simpl. by rewrite H. Qed.

Lemma handler_value_changes_unknown_path (changes : Changes) (path senderId : string)
    (s : DbusMonitor) :
  is_Some (serviceIds s !! senderId) → cached senderId path s = None →
  handler_value_changes unwrap_dbus_value changes path senderId s = (Ok tt, s, []).
Proof.
  intros [d Hd] Hc. unfold handler_value_changes, bind, gets, cached in *. simpl.
  rewrite Hd in *. simpl in Hc. by rewrite Hc.
Qed.

Lemma get_value_null (serviceName objectPath : string) (default_value : value)
    (opts : options) (svc : service) (s : DbusMonitor) :
  items s !! serviceName = Some svc →
  is_Some (serviceIds s !! serviceId svc) →
  get_value serviceName objectPath default_value
    (state_of (_set_value_error (serviceId svc) objectPath opts s))
  = Ok VNone.
Proof.
  intros Hi Hs. rewrite set_value_error_run by done. unfold state_of. simpl.
  eapply get_value_cached; [exact Hi |]. by apply cached_store_path_eq.
Qed.

(** C1.  [set_value] looks up [self.get_item], a name that neither the class
    body nor [__init__] binds: whatever the service name, the path and the
    value, tracked or not, the call raises [AttributeError] and returns
    nothing. *)
Theorem set_value_raises {Item : Type}
    (bound_get_item : string -> string -> option Item)
    (item_set_value : Item -> value -> outcome value)
    (serviceName objectPath : string) (v : value) (s : DbusMonitor) :
  set_value bound_get_item item_set_value serviceName objectPath v s
  = Raise (AttributeError "get_item").
Proof. reflexivity. Qed.

(** ** Beyond the claims *)

(** *** What a method leaves untouched *)

Lemma preserves_ret {A B} (f : DbusMonitor -> B) (a : A) : preserves f (ret a).
Proof. done. Qed.

Lemma preserves_raise {A B} (f : DbusMonitor -> B) (e : exn) : preserves f (@raise A e).
Proof. done. Qed.

Lemma preserves_gets {A B} (f : DbusMonitor -> B) (g : DbusMonitor -> A) :
  preserves f (gets g).
Proof. done. Qed.

Lemma preserves_lift {A B} (f : DbusMonitor -> B) (r : outcome A) : preserves f (lift r).
Proof. done. Qed.

Lemma preserves_reads {A B} (f : DbusMonitor -> B) (g : DbusMonitor -> outcome A) :
  preserves f (reads g).
Proof. done. Qed.

Lemma preserves_call_bus {A B} (f : DbusMonitor -> B) (r : dbus_result A) :
  preserves f (call_bus r).
Proof. by destruct r. Qed.

Lemma preserves_modify {B} (f : DbusMonitor -> B) (g : DbusMonitor -> DbusMonitor) :
  (∀ s, f (g s) = f s) → preserves f (modify g).
Proof. intros H s. apply H. Qed.

Lemma preserves_bind {A A' B} (f : DbusMonitor -> B) (m : M A) (k : A -> M A') :
  preserves f m → (∀ a, preserves f (k a)) → preserves f (bind m k).
Proof.
  intros Hm Hk s. specialize (Hm s). unfold bind, state_of in *.
  destruct (m s) as [[[a | e] s1] h1]; simpl in *; [| done].
  specialize (Hk a s1). unfold state_of in Hk.
  destruct (k a s1) as [[r s2] h2]. simpl in *. congruence.
Qed.

Lemma preserves_try {A B} (f : DbusMonitor -> B) (body : M A) (handler : string -> M A) :
  preserves f body → (∀ n, preserves f (handler n)) →
  preserves f (try_except_dbus body handler).
Proof.
  intros Hm Hk s. specialize (Hm s). unfold try_except_dbus, state_of in *.
  destruct (body s) as [[[a | e] s1] h1]; simpl in *; [done |].
  destruct e as [| | | | | n]; try done.
  specialize (Hk n s1). unfold state_of in Hk.
  destruct (handler n s1) as [[r s2] h2]. simpl in *. congruence.
Qed.

Create HintDb frame discriminated.
#[local] Hint Resolve preserves_ret preserves_raise preserves_gets preserves_lift
  preserves_reads preserves_call_bus preserves_bind preserves_try : frame.

Lemma preserves_scan_paths {B} (f : DbusMonitor -> B) (bus : Bus)
    (serviceName sid : string) (ps : list (string * options))
    (service : gmap string (list string)) :
  (∀ g s, f (set_serviceIds g s) = f s) → (∀ c s, f (push_async_call c s) = f s) →
  preserves f (scan_paths bus serviceName sid service ps).
Proof.
  intros Hs Ha. revert service.
  induction ps as [| item ps IH]; intros service; simpl; [auto with frame |].
  apply preserves_bind; [| auto].
  unfold scan_path. destruct (negb _); [auto with frame |].
  apply preserves_bind.
  - destruct (call_async _ _ _) as [n |]; apply preserves_modify; intros s;
      [apply Hs | apply Ha].
  - intros _. destruct (whenToLog item.2) as [[| c w] |]; auto with frame.
    destruct (service !! _); auto with frame.
Qed.

Lemma preserves_scan {B} (f : DbusMonitor -> B) (bus : Bus) (serviceName : string) :
  scan_frame f → preserves f (scan_dbus_service bus serviceName).
Proof.
  intros Hf. pose proof Hf as (Hi & Hs & Ha & Hr). unfold scan_dbus_service.
  apply preserves_bind; [auto with frame |]. intros tree.
  destruct (tree !! class_of serviceName) as [[| item0 rest0] |]; auto with frame.
  apply preserves_bind; [auto with frame |]. intros its.
  destruct (bool_decide _); [auto with frame |].
  apply preserves_bind; [auto with frame |]. intros sid.
  apply preserves_bind; [apply preserves_modify; intros s; apply Hs |]. intros _.
  apply preserves_try; [| intros n; destruct (vanished n); auto with frame].
  unfold scan_body.
  apply preserves_bind.
  { unfold read_device_instance. apply preserves_bind; [auto with frame |].
    intros flag. destruct (_ && _)%bool; [auto with frame |].
    apply preserves_bind; [auto with frame |]. intros v. destruct v; auto with frame. }
  intros di. apply preserves_bind; [by apply preserves_scan_paths |]. intros service.
  apply preserves_bind.
  { destruct (add_signal_receiver bus serviceName); [auto with frame |].
    apply preserves_bind; [| auto with frame].
    apply preserves_modify. intros s. apply Hr. }
  intros m. apply preserves_bind; [| auto with frame].
  apply preserves_modify. intros s. apply Hi.
Qed.

(** X1.  A scan does not call the owner, queues nothing on the idle loop and
    leaves the schema, the flags and every other tracked service alone. *)
Theorem scan_leaves_the_rest (bus : Bus) (serviceName : string) (s : DbusMonitor) :
  owner_calls (state_of (scan_dbus_service bus serviceName s)) = owner_calls s ∧
  idle_queue (state_of (scan_dbus_service bus serviceName s)) = idle_queue s ∧
  dbusTree (state_of (scan_dbus_service bus serviceName s)) = dbusTree s ∧
  vebusDeviceInstance0 (state_of (scan_dbus_service bus serviceName s))
  = vebusDeviceInstance0 s ∧
  (∀ other, other ≠ serviceName →
     items (state_of (scan_dbus_service bus serviceName s)) !! other = items s !! other).
Proof.
  repeat split; try (by apply preserves_scan).
  intros other Hne.
  destruct (scan_writes bus serviceName s) as [(Hr & _) | (_ & Hi & _)].
  - destruct (scan_ok_inv bus serviceName s Hr)
      as (ps & sid & di & _ & _ & _ & _ & _ & _ & ->).
    unfold published. simpl. rewrite items_after_paths. simpl.
    by rewrite lookup_insert_ne.
  - by rewrite Hi.
Qed.

(** *** More about a scan *)

Lemma async_calls_after_paths_eq (bus : Bus) (serviceName sid : string)
    (ps : list (string * options)) (s : DbusMonitor) :
  async_calls (after_paths bus serviceName sid ps s)
  = async_calls s ++ omap (fetch_of bus serviceName sid) ps.
Proof.
  revert s. induction ps as [| item ps IH]; intros s.
  - simpl. by rewrite app_nil_r.
  - unfold after_paths in *. csimpl. rewrite IH.
    unfold after_path, fetch_of.
    destruct (call_async bus serviceName item.1); simpl; [done |].
    by rewrite <- app_assoc.
Qed.

Lemma receivers_after_paths (bus : Bus) (serviceName sid : string)
    (ps : list (string * options)) (s : DbusMonitor) :
  receivers (after_paths bus serviceName sid ps s) = receivers s.
Proof.
  revert s. induction ps as [| item ps IH]; intros s; [done |].
  unfold after_paths in *. simpl. rewrite IH. unfold after_path.
  by destruct (call_async _ _ _).
Qed.

Lemma scan_failed_receivers (bus : Bus) (serviceName : string) (s : DbusMonitor) :
  result_of (scan_dbus_service bus serviceName s) ≠ Ok true →
  receivers (state_of (scan_dbus_service bus serviceName s)) = receivers s.
Proof.
  unfold result_of, state_of, scan_dbus_service, bind, gets. simpl.
  destruct (dbusTree s !! class_of serviceName) as [ps |]; [| done].
  destruct ps as [| item0 rest0] eqn:Eps; [done |]. rewrite <- Eps. clear Eps.
  case_bool_decide; [done |].
  destruct (get_name_owner bus serviceName) as [sid | n]; [| done]. simpl.
  unfold try_except_dbus, scan_body, bind.
  rewrite read_device_instance_run. simpl.
  destruct (device_instance_of bus serviceName (vebusDeviceInstance0 s)) as [di | e].
  - pose proof (preserves_scan_paths receivers bus serviceName sid ps empty_buckets) as Hp.
    specialize (Hp (fun _ _ => eq_refl) (fun _ _ => eq_refl)
                  (registered serviceName sid s)).
    unfold state_of, registered in Hp.
    destruct (scan_paths _ _ _ _ _ _) as [[[b | e] s2] h2]; simpl in *.
    + destruct (add_signal_receiver bus serviceName) as [n |]; simpl; [| done].
      by destruct (vanished n).
    + destruct e as [| | | | | n]; simpl; try done. by destruct (vanished n).
  - destruct e as [| | | | | n]; simpl; try done. by destruct (vanished n).
Qed.

(** X2.  A scan that returns [True] has handed to [call_async] one request
    per schema path, in schema order, each bound to the bus identity of the
    service, its path and its options (the paths for which [call_async]
    raised are left out), and has registered one signal receiver, for the
    service name; a scan that does not return [True] registers none. *)
Theorem scan_requests_and_receiver (bus : Bus) (serviceName : string)
    (s : DbusMonitor) :
  (result_of (scan_dbus_service bus serviceName s) = Ok true →
   ∃ ps sid,
     dbusTree s !! class_of serviceName = Some ps ∧
     get_name_owner bus serviceName = Returned sid ∧
     async_calls (state_of (scan_dbus_service bus serviceName s))
     = async_calls s ++ omap (fetch_of bus serviceName sid) ps ∧
     receivers (state_of (scan_dbus_service bus serviceName s))
     = receivers s ++ [serviceName]) ∧
  (result_of (scan_dbus_service bus serviceName s) ≠ Ok true →
   receivers (state_of (scan_dbus_service bus serviceName s)) = receivers s).
Proof.
  split; [| apply scan_failed_receivers].
  intros Hr.
  destruct (scan_ok_inv bus serviceName s Hr)
    as (ps & sid & di & Htree & _ & _ & Hown & _ & _ & ->).
  exists ps, sid. repeat split; try done.
  - unfold published. simpl. by rewrite async_calls_after_paths_eq.
  - unfold published. simpl. by rewrite receivers_after_paths.
Qed.

Lemma bucket_step_lookup (service : gmap string (list string)) (item : string * options)
    (category : string) (l0 : list string) :
  category ≠ EmptyString → service !! category = Some l0 →
  bucket_step service item !! category
  = Some (l0 ++ paths_of_category category [item]).
Proof.
  intros Hne Hl0. unfold paths_of_category. rewrite filter_cons, filter_nil.
  destruct (decide (whenToLog item.2 = Some category)) as [Hw | Hw];
    unfold bucket_step; simpl.
  - rewrite Hw. destruct category as [| c w]; [done |].
    by rewrite Hl0, lookup_insert_eq.
  - rewrite app_nil_r.
    destruct (whenToLog item.2) as [[| c w] |]; try done.
    destruct (service !! String c w); [| done].
    rewrite lookup_insert_ne; [done | congruence].
Qed.

Lemma buckets_after_lookup (ps : list (string * options))
    (service : gmap string (list string)) (category : string) (l0 : list string) :
  category ≠ EmptyString → service !! category = Some l0 →
  buckets_after service ps !! category = Some (l0 ++ paths_of_category category ps).
Proof.
  intros Hne. revert service l0.
  induction ps as [| item ps IH]; intros service l0 Hl0.
  - simpl. by rewrite app_nil_r.
  - unfold buckets_after in *. simpl.
    rewrite (IH _ _ (bucket_step_lookup service item category l0 Hne Hl0)).
    rewrite <- app_assoc. do 2 f_equal.
    unfold paths_of_category. rewrite !filter_cons, filter_nil.
    by destruct (decide _).
Qed.

Lemma bucket_step_keys (service : gmap string (list string)) (item : string * options)
    (category : string) :
  is_Some (bucket_step service item !! category) → is_Some (service !! category).
Proof.
  unfold bucket_step.
  destruct (whenToLog item.2) as [[| c w] |]; try done.
  destruct (service !! String c w) eqn:E; [| done].
  destruct (decide (String c w = category)) as [<- | Hc].
  - by rewrite E.
  - by rewrite lookup_insert_ne.
Qed.

Lemma buckets_after_keys (ps : list (string * options))
    (service : gmap string (list string)) (category : string) :
  is_Some (buckets_after service ps !! category) → is_Some (service !! category).
Proof.
  revert service. induction ps as [| item ps IH]; intros service H; [done |].
  unfold buckets_after in *. simpl in H. apply (bucket_step_keys service item).
  by apply IH.
Qed.

Lemma empty_buckets_keys (category : string) :
  is_Some (empty_buckets !! category) → category ∈ whentologoptions.
Proof.
  unfold empty_buckets, whentologoptions. simpl. intros [l H]. revert H.
  rewrite !lookup_insert_Some, lookup_empty. intros H.
  repeat (destruct H as [[<- _] | [_ H]];
          [by repeat (try (by left); right) |]).
  done.
Qed.

(** X3.  The service a scan publishes has exactly the four category lists,
    and the list of a category holds the schema paths whose [whenToLog] is
    that category, in schema order. *)
Theorem scan_buckets_by_category (bus : Bus) (serviceName : string)
    (ps : list (string * options)) (s : DbusMonitor) :
  result_of (scan_dbus_service bus serviceName s) = Ok true →
  dbusTree s !! class_of serviceName = Some ps →
  ∃ svc,
    items (state_of (scan_dbus_service bus serviceName s)) !! serviceName = Some svc ∧
    (∀ category, category ∈ whentologoptions →
       buckets svc !! category = Some (paths_of_category category ps)) ∧
    (∀ category, is_Some (buckets svc !! category) → category ∈ whentologoptions).
Proof.
  intros Hr Htree.
  destruct (scan_ok_inv bus serviceName s Hr)
    as (ps' & sid & di & Htree' & _ & _ & _ & _ & _ & ->).
  assert (ps' = ps) as -> by congruence.
  exists (scanned_service serviceName sid di ps). split; [apply published_items |].
  split.
  - intros category Hc. simpl.
    destruct (has_buckets_empty_buckets category Hc) as [l0 Hl0].
    pose proof (empty_buckets_lists _ _ Hl0) as ->.
    apply (buckets_after_lookup ps empty_buckets category [] ); [| done].
    intros ->. unfold whentologoptions in Hc.
    repeat (apply elem_of_cons in Hc as [Hc | Hc]; [discriminate Hc |]).
    by apply elem_of_nil in Hc.
  - intros category Hc. simpl in Hc.
    by apply empty_buckets_keys, (buckets_after_keys ps).
Qed.

Lemma scan_paths_invalid (bus : Bus) (serviceName sid : string)
    (ps : list (string * options)) (service : gmap string (list string))
    (s : DbusMonitor) :
  Exists (fun item => valid_options item.2 = false) ps → has_buckets service →
  result_of (scan_paths bus serviceName sid service ps s) = Raise AssertionError.
Proof.
  revert service s. induction ps as [| item ps IH]; intros service s Hex Hb.
  - by apply Exists_nil in Hex.
  - simpl. unfold bind.
    destruct (valid_options item.2) eqn:Hv.
    + rewrite scan_path_run by done.
      apply Exists_cons in Hex as [Hex | Hex]; [congruence |].
      specialize (IH (bucket_step service item) (after_path bus serviceName sid s item)
                    Hex (has_buckets_bucket_step _ _ Hb)).
      unfold result_of in *.
      by destruct (scan_paths _ _ _ _ _ _) as [[r s2] h2].
    + unfold scan_path. unfold valid_options in Hv. by rewrite Hv.
Qed.

(** X4.  When the schema holds a [whenToLog] that is neither [None] nor one of
    the four categories, the scan of a matching service raises
    [AssertionError] (the [except] clause does not catch it) and the
    service is not added to the registry. *)
Theorem scan_unknown_category_asserts (bus : Bus) (serviceName sid : string)
    (ps : list (string * options)) (di : Z) (s : DbusMonitor) :
  dbusTree s !! class_of serviceName = Some ps →
  Exists (fun item => valid_options item.2 = false) ps →
  items s !! serviceName = None →
  get_name_owner bus serviceName = Returned sid →
  device_instance_of bus serviceName (vebusDeviceInstance0 s) = Ok di →
  result_of (scan_dbus_service bus serviceName s) = Raise AssertionError ∧
  items (state_of (scan_dbus_service bus serviceName s)) = items s.
Proof.
  intros Htree Hex Hitems Hown Hdi.
  assert (result_of (scan_dbus_service bus serviceName s) = Raise AssertionError) as Hr.
  { assert (ps ≠ []) as Hne by (intros ->; by apply Exists_nil in Hex).
    unfold result_of. enter_scan Htree Hne Hitems Hown. rewrite Hdi.
    pose proof (scan_paths_invalid bus serviceName sid ps empty_buckets
                  (registered serviceName sid s) Hex has_buckets_empty_buckets) as Hp.
    unfold result_of, registered in Hp.
    destruct (scan_paths _ _ _ _ _ _) as [[r s2] h2]. simpl in *. by subst r. }
  split; [done |].
  destruct (scan_writes bus serviceName s) as [(Hr' & _) | (_ & Hi & _)]; [| done].
  congruence.
Qed.

(** X5.  A service that a scan has just added cannot be scanned again: the
    second scan raises [AssertionError] before it asks the bus anything,
    and changes nothing. *)
Theorem rescan_asserts (bus bus' : Bus) (serviceName : string) (s : DbusMonitor) :
  result_of (scan_dbus_service bus serviceName s) = Ok true →
  scan_dbus_service bus' serviceName (state_of (scan_dbus_service bus serviceName s))
  = (Raise AssertionError, state_of (scan_dbus_service bus serviceName s), []).
Proof.
  intros Hr.
  pose proof (preserves_scan dbusTree bus serviceName (ltac:(by repeat split)) s) as Htree.
  destruct (scan_ok_inv bus serviceName s Hr)
    as (ps & sid & di & Hps & Hne & _ & _ & _ & _ & Hst).
  rewrite Hst in *.
  pose proof (published_items bus serviceName sid di ps s) as Hitems.
  remember (published bus serviceName sid di ps s) as st eqn:Est. clear Est Hst.
  unfold scan_dbus_service, bind, gets. simpl. rewrite Htree, Hps.
  destruct ps as [| item0 rest0]; [done |].
  rewrite bool_decide_eq_true_2; [done |]. rewrite Hitems. eauto.
Qed.

(** *** [get_service_list] *)

Lemma get_service_list_fold (classfilter : option string) (s : DbusMonitor)
    (l : list string) (r0 : gmap string Z) :
  (∀ n, n ∈ l → is_Some (items s !! n)) →
  ∃ r,
    foldl
      (fun acc servicename =>
         match acc with
         | Raise e => Raise e
         | Ok r =>
             if match classfilter with
                | None | Some EmptyString => true
                | Some _ =>
                    bool_decide (Some (take 3 (split "." servicename))
                                 = (fun c => take 3 (split "." c)) <$> classfilter)
                end
             then match get_device_instance servicename s with
                  | Ok i => Ok (<[servicename := i]> r)
                  | Raise e => Raise e
                  end
             else Ok r
         end) (Ok r0) l
    = Ok r ∧
    ∀ n, r !! n = if decide (n ∈ l ∧ in_class classfilter n = true)
                  then deviceInstance <$> items s !! n
                  else r0 !! n.
Proof.
  revert r0. induction l as [| h l IH]; intros r0 Hl.
  - exists r0. split; [done |]. intros n. rewrite decide_False; [done |].
    intros [H _]. by apply elem_of_nil in H.
  - simpl.
    assert (match classfilter with
            | None | Some EmptyString => true
            | Some _ =>
                bool_decide (Some (take 3 (split "." h))
                             = (fun c => take 3 (split "." c)) <$> classfilter)
            end = in_class classfilter h) as ->.
    { unfold in_class. destruct classfilter as [[| c w] |]; try done. simpl.
      apply bool_decide_ext. split; [by intros [= ->] | by intros ->]. }
    destruct (Hl h) as [svc Hsvc]; [by left |].
    assert (get_device_instance h s = Ok (deviceInstance svc)) as ->
      by (unfold get_device_instance; by rewrite Hsvc).
    destruct (in_class classfilter h) eqn:Hc.
    + destruct (IH (<[h := deviceInstance svc]> r0)) as (r & Hr & Hlook);
        [intros n Hn; apply Hl; by right |].
      exists r. split; [done |]. intros n. rewrite Hlook.
      destruct (decide (n = h)) as [-> | Hne].
      * rewrite (decide_True (P := h ∈ h :: l ∧ _)) by (split; [by left | done]).
        rewrite lookup_insert_eq, Hsvc. simpl. by destruct (decide _).
      * rewrite lookup_insert_ne by done.
        destruct (decide (n ∈ l ∧ in_class classfilter n = true)) as [[H1 H2] | H1].
        -- rewrite decide_True; [done |]. split; [by right | done].
        -- rewrite decide_False; [done |]. intros [H2 H3]. apply H1.
           apply elem_of_cons in H2 as [H2 | H2]; [done |]. done.
    + destruct (IH r0) as (r & Hr & Hlook); [intros n Hn; apply Hl; by right |].
      exists r. split; [done |]. intros n. rewrite Hlook.
      destruct (decide (n ∈ l ∧ in_class classfilter n = true)) as [[H1 H2] | H1].
      * rewrite decide_True; [done |]. split; [by right | done].
      * rewrite decide_False; [done |]. intros [H2 H3]. apply H1.
        apply elem_of_cons in H2 as [-> | H2]; [congruence | done].
Qed.

Lemma get_service_list_run (classfilter : option string) (s : DbusMonitor) :
  ∃ r, get_service_list classfilter s = Ok r ∧
       ∀ n, r !! n = if in_class classfilter n
                     then deviceInstance <$> items s !! n
                     else None.
Proof.
  destruct (get_service_list_fold classfilter s (map_to_list (items s)).*1 ∅)
    as (r & Hr & Hlook).
  { intros n Hn. apply list_elem_of_fmap in Hn as ([n' svc] & -> & Hin).
    apply elem_of_map_to_list in Hin. simpl. eauto. }
  exists r. split; [exact Hr |]. intros n. rewrite Hlook, lookup_empty.
  destruct (in_class classfilter n) eqn:Hc.
  - destruct (decide _) as [_ | Hn]; [done |].
    destruct (items s !! n) as [svc |] eqn:E; [| done].
    exfalso. apply Hn. split; [| done].
    apply list_elem_of_fmap. exists (n, svc). split; [done |].
    by apply elem_of_map_to_list.
  - rewrite decide_False; [done |]. intros [_ H]. done.
Qed.

(** X6.  [get_service_list] never raises; it maps each tracked service that
    passes the class filter to its device instance and holds no other key.
    Without filter, or with an empty one, every tracked service passes;
    otherwise a service passes when its first three dot-separated
    components are those of the filter, so that two filters with the same
    first three components give the same list. *)
Theorem get_service_list_lookup (classfilter : option string) (s : DbusMonitor) :
  (∃ r, get_service_list classfilter s = Ok r ∧
        ∀ n i, r !! n = Some i ↔
               in_class classfilter n = true ∧
               ∃ svc, items s !! n = Some svc ∧ deviceInstance svc = i) ∧
  (∀ n, in_class None n = true ∧ in_class (Some EmptyString) n = true) ∧
  (∀ c c' w w',
     take 3 (split "." (String c w)) = take 3 (split "." (String c' w')) →
     get_service_list (Some (String c w)) s = get_service_list (Some (String c' w')) s).
Proof.
  split; [| split].
  - destruct (get_service_list_run classfilter s) as (r & Hr & Hlook).
    exists r. split; [done |]. intros n i. rewrite Hlook.
    destruct (in_class classfilter n).
    + destruct (items s !! n) as [svc |]; simpl.
      * split.
        -- intros [= <-]. eauto.
        -- intros (_ & svc' & [= <-] & <-). done.
      * split; [done |]. by intros (_ & svc' & ? & _).
    + split; [done |]. by intros [? _].
  - done.
  - intros c c' w w' Heq.
    destruct (get_service_list_run (Some (String c w)) s) as (r & Hr & Hlook).
    destruct (get_service_list_run (Some (String c' w')) s) as (r' & Hr' & Hlook').
    rewrite Hr, Hr'. f_equal. apply map_eq. intros n.
    rewrite Hlook, Hlook'. unfold in_class. by rewrite Heq.
Qed.

(** *** The class of a service name *)

Lemma split_nonempty (sep : ascii) (s : string) : split sep s ≠ [].
Proof.
  destruct s as [| c r]; simpl; [done |].
  destruct (Ascii.eqb c sep); [done |]. by destruct (split sep r).
Qed.

Lemma split_free (sep : ascii) (s : string) :
  Forall (fun x => contains sep x = false) (split sep s).
Proof.
  induction s as [| c r IH]; simpl.
  - by repeat constructor.
  - destruct (Ascii.eqb c sep) eqn:Ec.
    + by constructor.
    + destruct (split sep r) as [| h t]; simpl.
      * repeat constructor. simpl. by rewrite Ec.
      * apply Forall_cons in IH as [Hh Ht]. constructor; [| done].
        simpl. by rewrite Ec.
Qed.

Lemma split_of_free (sep : ascii) (x : string) :
  contains sep x = false → split sep x = [x].
Proof.
  induction x as [| c r IH]; simpl; [done |].
  destruct (Ascii.eqb c sep); [done |]. intros H. by rewrite IH.
Qed.

Lemma split_append (sep : ascii) (x r : string) :
  contains sep x = false →
  split sep (x +:+ String sep r) = x :: split sep r.
Proof.
  induction x as [| c x IH]; simpl.
  - intros _. by rewrite Ascii.eqb_refl.
  - destruct (Ascii.eqb c sep); [done |]. intros H. by rewrite IH.
Qed.

Lemma split_join (sep : ascii) (l : list string) :
  l ≠ [] → Forall (fun x => contains sep x = false) l →
  split sep (join (String sep EmptyString) l) = l.
Proof.
  induction l as [| x l IH]; [done |]. intros _ Hf.
  apply Forall_cons in Hf as [Hx Hl].
  destruct l as [| y l].
  - simpl. by apply split_of_free.
  - change (join (String sep EmptyString) (x :: y :: l))
      with (x +:+ String sep (join (String sep EmptyString) (y :: l))).
    rewrite split_append by done. f_equal. by apply IH.
Qed.

Lemma split_class_of (serviceName : string) :
  split "." (class_of serviceName) = take 3 (split "." serviceName).
Proof.
  unfold class_of. apply split_join.
  - pose proof (split_nonempty "." serviceName).
    by destruct (split "." serviceName).
  - apply Forall_take, split_free.
Qed.

(** X7.  The class of a service name, under which [scan_dbus_service] looks
    the schema up, has the same first three components as the name and is
    its own class: splitting it at the dots gives back the components it
    was joined from. *)
Theorem class_of_components (serviceName : string) :
  split "." (class_of serviceName) = take 3 (split "." serviceName) ∧
  class_of (class_of serviceName) = class_of serviceName.
Proof.
  split; [apply split_class_of |].
  unfold class_of at 1. rewrite split_class_of. by rewrite take_take.
Qed.

(** X8.  A tracked service is always in the list that [get_service_list]
    gives for its own class, the key of the schema it was scanned under,
    with its device instance. *)
Theorem tracked_service_listed_under_its_class (serviceName : string) (svc : service)
    (s : DbusMonitor) :
  items s !! serviceName = Some svc →
  ∃ r, get_service_list (Some (class_of serviceName)) s = Ok r ∧
       r !! serviceName = Some (deviceInstance svc).
Proof.
  intros Hi.
  destruct (get_service_list_run (Some (class_of serviceName)) s) as (r & Hr & Hlook).
  exists r. split; [done |]. rewrite Hlook, Hi.
  assert (in_class (Some (class_of serviceName)) serviceName = true) as ->; [| done].
  unfold in_class. destruct (class_of serviceName) as [| c w] eqn:E; [done |].
  apply bool_decide_eq_true. rewrite <- E.
  by rewrite split_class_of, take_take.
Qed.

(** *** Owner changes *)

Lemma removal_run (bus : Bus) (serviceName oldowner : string) (svc : service)
    (s : DbusMonitor) :
  items s !! serviceName = Some svc →
  is_Some (serviceIds s !! serviceId svc) →
  result_of (_process_name_owner_changed bus serviceName oldowner EmptyString s) = Ok tt ∧
  state_of (_process_name_owner_changed bus serviceName oldowner EmptyString s)
  = if deviceRemovedCallback s
    then push_owner_call (DeviceRemoved serviceName (deviceInstance svc))
           (without serviceName svc s)
    else without serviceName svc s.
Proof.
  intros Hi [d Hd].
  unfold _process_name_owner_changed, result_of, state_of, bind, gets. simpl.
  rewrite Hi, Hd. simpl. by destruct (deviceRemovedCallback s).
Qed.

Lemma removal_stale_identity (bus : Bus) (serviceName oldowner : string) (svc : service)
    (s : DbusMonitor) :
  items s !! serviceName = Some svc →
  serviceIds s !! serviceId svc = None →
  _process_name_owner_changed bus serviceName oldowner EmptyString s
  = (Raise (KeyError (serviceId svc)), s, []).
Proof.
  intros Hi Hd. unfold _process_name_owner_changed, bind, gets. simpl.
  by rewrite Hi, Hd.
Qed.

(** X9.  When a tracked service loses its owner, what the processing of the
    owner change does depends on the cache entry of the bus identity of the
    service.  While the identity is in the cache, the service is taken out
    of the registry and the identity out of the cache, and the removal
    callback (when there is one) is called once, with the device instance
    the service had; from then on [get_value] gives the default for every
    path of the service and [get_service_list] does not list it, and the
    signal receiver of the service and its requests in flight stay as they
    are.  When the identity is no longer in the cache (two tracked names of
    one identity, the other one removed first), [del self.serviceIds[...]]
    raises [KeyError] with the identity: nothing is written, the service
    stays in the registry and no callback is called. *)
Theorem removal_forgets_service (bus : Bus) (serviceName oldowner : string)
    (svc : service) (s : DbusMonitor) :
  items s !! serviceName = Some svc →
  (is_Some (serviceIds s !! serviceId svc) →
   result_of (_process_name_owner_changed bus serviceName oldowner EmptyString s) = Ok tt ∧
   items (state_of (_process_name_owner_changed bus serviceName oldowner EmptyString s))
   = delete serviceName (items s) ∧
   serviceIds (state_of (_process_name_owner_changed bus serviceName oldowner EmptyString s))
   = delete (serviceId svc) (serviceIds s) ∧
   owner_calls (state_of (_process_name_owner_changed bus serviceName oldowner EmptyString s))
   = owner_calls s
     ++ (if deviceRemovedCallback s
         then [DeviceRemoved serviceName (deviceInstance svc)] else []) ∧
   receivers (state_of (_process_name_owner_changed bus serviceName oldowner EmptyString s))
   = receivers s ∧
   async_calls (state_of (_process_name_owner_changed bus serviceName oldowner EmptyString s))
   = async_calls s ∧
   (∀ objectPath default_value,
      get_value serviceName objectPath default_value
        (state_of (_process_name_owner_changed bus serviceName oldowner EmptyString s))
      = Ok default_value) ∧
   (∀ classfilter,
      ∃ r, get_service_list classfilter
             (state_of (_process_name_owner_changed bus serviceName oldowner EmptyString s))
           = Ok r ∧ r !! serviceName = None)) ∧
  (serviceIds s !! serviceId svc = None →
   _process_name_owner_changed bus serviceName oldowner EmptyString s
   = (Raise (KeyError (serviceId svc)), s, [])).
Proof.
  intros Hi. split; [| by apply removal_stale_identity].
  intros Hs. destruct (removal_run bus serviceName oldowner svc s Hi Hs) as [Hr Hst].
  rewrite Hst. clear Hst.
  assert (items (if deviceRemovedCallback s
                 then push_owner_call (DeviceRemoved serviceName (deviceInstance svc))
                        (without serviceName svc s)
                 else without serviceName svc s) = delete serviceName (items s)) as Hitems
    by (by destruct (deviceRemovedCallback s)).
  split; [done |]. split; [done |].
  split; [by destruct (deviceRemovedCallback s) |].
  split; [destruct (deviceRemovedCallback s); simpl; by rewrite ?app_nil_r |].
  split; [by destruct (deviceRemovedCallback s) |].
  split; [by destruct (deviceRemovedCallback s) |].
  split.
  - intros p d. apply get_value_untracked. rewrite Hitems. apply lookup_delete_eq.
  - intros cf.
    destruct (get_service_list_run cf
                (if deviceRemovedCallback s
                 then push_owner_call (DeviceRemoved serviceName (deviceInstance svc))
                        (without serviceName svc s)
                 else without serviceName svc s)) as (r & Hl & Hlook).
    exists r. split; [done |]. rewrite Hlook, Hitems, lookup_delete_eq.
    by destruct (in_class cf serviceName).
Qed.

(** X10.  When a name gets an owner, processing the owner change is a scan
    followed, only if the scan returned [True] and there is a callback for
    added devices, by one call of that callback with the device instance of
    the service just published.  A scan that returns [False] calls nobody,
    and an exception of the scan leaves through the processing. *)
Theorem appearance_scans_then_notifies (bus : Bus) (serviceName oldowner newowner : string)
    (s : DbusMonitor) :
  newowner ≠ EmptyString →
  (result_of (scan_dbus_service bus serviceName s) = Ok true →
   ∃ svc,
     items (state_of (scan_dbus_service bus serviceName s)) !! serviceName = Some svc ∧
     result_of (_process_name_owner_changed bus serviceName oldowner newowner s) = Ok tt ∧
     state_of (_process_name_owner_changed bus serviceName oldowner newowner s)
     = if deviceAddedCallback s
       then push_owner_call (DeviceAdded serviceName (deviceInstance svc))
              (state_of (scan_dbus_service bus serviceName s))
       else state_of (scan_dbus_service bus serviceName s)) ∧
  (result_of (scan_dbus_service bus serviceName s) = Ok false →
   result_of (_process_name_owner_changed bus serviceName oldowner newowner s) = Ok tt ∧
   state_of (_process_name_owner_changed bus serviceName oldowner newowner s)
   = state_of (scan_dbus_service bus serviceName s)) ∧
  (∀ e, result_of (scan_dbus_service bus serviceName s) = Raise e →
        result_of (_process_name_owner_changed bus serviceName oldowner newowner s)
        = Raise e ∧
        state_of (_process_name_owner_changed bus serviceName oldowner newowner s)
        = state_of (scan_dbus_service bus serviceName s)).
Proof.
  intros Hne.
  assert (negb (String.eqb newowner EmptyString) = true) as Hnew.
  { destruct (String.eqb_spec newowner EmptyString); [done | done]. }
  pose proof (preserves_scan deviceAddedCallback bus serviceName
                (ltac:(by repeat split)) s) as Hcb.
  split; [| split].
  - intros Hr.
    destruct (scan_ok_inv bus serviceName s Hr)
      as (ps & sid & di & _ & _ & _ & _ & _ & _ & Hst).
    pose proof (published_items bus serviceName sid di ps s) as Hitems.
    rewrite <- Hst in Hitems.
    exists (scanned_service serviceName sid di ps). split; [done |].
    unfold _process_name_owner_changed. rewrite Hnew.
    unfold result_of, state_of, bind in *.
    destruct (scan_dbus_service bus serviceName s) as [[r s1] h1]. simpl in *.
    subst r. unfold gets, reads, get_device_instance. simpl.
    rewrite Hcb. destruct (deviceAddedCallback s); [| done]. by rewrite Hitems.
  - intros Hr. unfold _process_name_owner_changed. rewrite Hnew.
    unfold result_of, state_of, bind in *.
    destruct (scan_dbus_service bus serviceName s) as [[r s1] h1]. simpl in *.
    by subst r.
  - intros e Hr. unfold _process_name_owner_changed. rewrite Hnew.
    unfold result_of, state_of, bind in *.
    destruct (scan_dbus_service bus serviceName s) as [[r s1] h1]. simpl in *.
    by subst r.
Qed.

Lemma delete_serviceIds_after_paths (bus : Bus) (serviceName sid : string)
    (ps : list (string * options)) (s : DbusMonitor) :
  delete sid (serviceIds (after_paths bus serviceName sid ps s))
  = delete sid (serviceIds s).
Proof.
  revert s. induction ps as [| item ps IH]; intros s; [done |].
  unfold after_paths in *. simpl. rewrite IH. unfold after_path.
  destruct (call_async _ _ _); [| done]. simpl. apply delete_alter_eq.
Qed.

(** X11.  A scan followed by the removal of the same service gives back the
    registry, and also the cache when the bus identity was not in it
    before; what stays of the scan is its signal receiver. *)
Theorem scan_then_removal (bus bus' : Bus) (serviceName oldowner : string)
    (s : DbusMonitor) :
  result_of (scan_dbus_service bus serviceName s) = Ok true →
  result_of (_process_name_owner_changed bus' serviceName oldowner EmptyString
               (state_of (scan_dbus_service bus serviceName s))) = Ok tt ∧
  items (state_of (_process_name_owner_changed bus' serviceName oldowner EmptyString
                     (state_of (scan_dbus_service bus serviceName s))))
  = items s ∧
  (∀ sid, get_name_owner bus serviceName = Returned sid →
          serviceIds s !! sid = None →
          serviceIds (state_of (_process_name_owner_changed bus' serviceName oldowner
                                  EmptyString
                                  (state_of (scan_dbus_service bus serviceName s))))
          = serviceIds s) ∧
  receivers (state_of (_process_name_owner_changed bus' serviceName oldowner EmptyString
                         (state_of (scan_dbus_service bus serviceName s))))
  = receivers s ++ [serviceName].
Proof.
  intros Hr.
  destruct (scan_ok_inv bus serviceName s Hr)
    as (ps & sid & di & _ & _ & Hnone & Hown & _ & _ & Hst).
  rewrite Hst.
  destruct (removal_run bus' serviceName oldowner (scanned_service serviceName sid di ps)
              (published bus serviceName sid di ps s)) as [Hres Hfin].
  { apply published_items. }
  { apply published_serviceIds. }
  rewrite Hfin. split; [done |].
  split; [| split].
  - destruct (deviceRemovedCallback _); simpl;
      by rewrite items_after_paths, delete_insert_id.
  - intros sid' Hown' Hfresh. assert (sid' = sid) as -> by congruence.
    destruct (deviceRemovedCallback _); simpl;
      rewrite delete_serviceIds_after_paths; simpl; by rewrite delete_insert_id.
  - destruct (deviceRemovedCallback _); simpl; by rewrite receivers_after_paths.
Qed.

(** *** Signals and deferred notifications *)

(** X12.  None of the handlers of completions, signals and deferred
    notifications, nor the receiver of owner changes, touches the
    registry: the tracked services and their category lists change only
    when an owner change is processed. *)
Theorem handlers_keep_registry (s : DbusMonitor) :
  (∀ sid path opts v,
     items (state_of (_set_value_callback unwrap_dbus_value sid path opts v s)) = items s) ∧
  (∀ sid path opts,
     items (state_of (_set_value_error sid path opts s)) = items s) ∧
  (∀ changes path senderId,
     items (state_of (handler_value_changes unwrap_dbus_value changes path senderId s))
     = items s) ∧
  (∀ sid path changes opts,
     items (state_of (_execute_value_changes sid path changes opts s)) = items s) ∧
  (∀ name oldowner newowner,
     items (state_of (dbus_name_owner_changed name oldowner newowner s)) = items s).
Proof.
  split; [| split; [| split; [| split]]]; intros.
  - apply keeps_items_set_value_callback.
  - apply keeps_items_set_value_error.
  - apply keeps_items_handler_value_changes.
  - apply keeps_items_execute_value_changes.
  - apply keeps_items_dbus_name_owner_changed.
Qed.

Lemma handler_value_changes_run (changes : Changes) (path senderId : string)
    (v0 : value) (opts : options) (s : DbusMonitor) :
  cached senderId path s = Some (v0, opts) →
  result_of (handler_value_changes unwrap_dbus_value changes path senderId s) = Ok tt ∧
  state_of (handler_value_changes unwrap_dbus_value changes path senderId s)
  = if valueChangedCallback s
    then push_idle (ExecuteValueChanges senderId path changes opts)
           (store_path senderId path (unwrap_dbus_value (Value changes)) opts s)
    else store_path senderId path (unwrap_dbus_value (Value changes)) opts s.
Proof.
  intros Hc. unfold cached in Hc.
  unfold handler_value_changes, result_of, state_of, bind, gets. simpl.
  destruct (serviceIds s !! senderId) as [d |]; [| done]. simpl in Hc.
  rewrite Hc. simpl. by destruct (valueChangedCallback s).
Qed.

(** X13.  A [PropertiesChanged] signal for a path that has a cache entry
    replaces the cached value by the unwrapped new one and keeps the
    options; [get_value] returns the new value at once.  No other entry
    changes.  The owner is not called from the signal handler: when there
    is a value-changed callback one notification is queued on the idle
    loop, otherwise nothing is. *)
Theorem signal_updates_cached_value (changes : Changes) (path senderId : string)
    (v0 : value) (opts : options) (s : DbusMonitor) :
  cached senderId path s = Some (v0, opts) →
  result_of (handler_value_changes unwrap_dbus_value changes path senderId s) = Ok tt ∧
  cached senderId path
    (state_of (handler_value_changes unwrap_dbus_value changes path senderId s))
  = Some (unwrap_dbus_value (Value changes), opts) ∧
  (∀ sid' path', sid' ≠ senderId ∨ path' ≠ path →
     cached sid' path'
       (state_of (handler_value_changes unwrap_dbus_value changes path senderId s))
     = cached sid' path' s) ∧
  (∀ serviceName svc default_value,
     items s !! serviceName = Some svc → serviceId svc = senderId →
     get_value serviceName path default_value
       (state_of (handler_value_changes unwrap_dbus_value changes path senderId s))
     = Ok (unwrap_dbus_value (Value changes))) ∧
  idle_queue (state_of (handler_value_changes unwrap_dbus_value changes path senderId s))
  = idle_queue s
    ++ (if valueChangedCallback s
        then [ExecuteValueChanges senderId path changes opts] else []) ∧
  owner_calls (state_of (handler_value_changes unwrap_dbus_value changes path senderId s))
  = owner_calls s.
Proof.
  intros Hc. destruct (handler_value_changes_run changes path senderId v0 opts s Hc)
    as [Hr Hst].
  assert (is_Some (serviceIds s !! senderId)) as Hsid.
  { unfold cached in Hc. destruct (serviceIds s !! senderId); [eauto | done]. }
  rewrite Hst. clear Hst.
  assert (∀ sid' path',
    cached sid' path'
      (if valueChangedCallback s
       then push_idle (ExecuteValueChanges senderId path changes opts)
              (store_path senderId path (unwrap_dbus_value (Value changes)) opts s)
       else store_path senderId path (unwrap_dbus_value (Value changes)) opts s)
    = cached sid' path'
        (store_path senderId path (unwrap_dbus_value (Value changes)) opts s)) as Hcached
    by (intros; by destruct (valueChangedCallback s)).
  split; [done |]. split; [| split; [| split; [| split]]].
  - rewrite Hcached. by apply cached_store_path_eq.
  - intros sid' path' Hne. rewrite Hcached. apply cached_store_path_ne.
    destruct Hne; [left | right]; congruence.
  - intros n svc d Hi Hs. eapply get_value_cached.
    + by destruct (valueChangedCallback s).
    + rewrite Hcached, Hs. by apply cached_store_path_eq.
  - destruct (valueChangedCallback s); simpl; by rewrite ?app_nil_r.
  - by destruct (valueChangedCallback s).
Qed.

(** X14.  A deferred notification looks the bus identity up in the cache.
    When the identity is there under the name of a tracked service, the
    value-changed callback is called once with that name, the path, the
    options, the changes and the device instance of the service; when the
    monitor has no such callback the call of [None] raises [TypeError] and
    nothing changes.  When the identity has left the cache in the meantime
    the notification is dropped: nobody is called and nothing changes,
    whether there is a callback or not.  This is what happens to a
    notification queued by a signal when the removal of the service is
    processed before it. *)
Theorem deferred_notification (bus : Bus) (serviceName oldowner path : string)
    (changes : Changes) (opts : options) (svc : service) (s : DbusMonitor) :
  items s !! serviceName = Some svc →
  (∀ d, serviceIds s !! serviceId svc = Some d → name d = serviceName →
        _execute_value_changes (serviceId svc) path changes opts s
        = if valueChangedCallback s
          then (Ok tt,
                push_owner_call
                  (ValueChanged serviceName path opts changes (deviceInstance svc)) s,
                [push_owner_call
                   (ValueChanged serviceName path opts changes (deviceInstance svc)) s])
          else (Raise TypeError, s, [])) ∧
  (serviceIds s !! serviceId svc = None →
   _execute_value_changes (serviceId svc) path changes opts s = (Ok tt, s, [])) ∧
  (is_Some (serviceIds s !! serviceId svc) →
   _execute_value_changes (serviceId svc) path changes opts
     (state_of (_process_name_owner_changed bus serviceName oldowner EmptyString s))
   = (Ok tt,
      state_of (_process_name_owner_changed bus serviceName oldowner EmptyString s),
      [])).
Proof.
  intros Hi. split; [| split].
  - intros d Hd Hn. unfold _execute_value_changes, bind, gets, reads. simpl.
    rewrite Hd. simpl. unfold get_device_instance. rewrite Hn, Hi.
    by destruct (valueChangedCallback s).
  - intros Hd. unfold _execute_value_changes, bind, gets. simpl. by rewrite Hd.
  - intros Hs. destruct (removal_run bus serviceName oldowner svc s Hi Hs) as [_ Hst].
    unfold _execute_value_changes, bind, gets. simpl. rewrite Hst.
    assert (serviceIds
              (if deviceRemovedCallback s
               then push_owner_call (DeviceRemoved serviceName (deviceInstance svc))
                      (without serviceName svc s)
               else without serviceName svc s) !! serviceId svc = None) as ->; [| done].
    destruct (deviceRemovedCallback s); simpl; apply lookup_delete_eq.
Qed.

(** *** The constructor's loop *)

Lemma scan_tracks (bus : Bus) (serviceName n : string) (svc : service) (s : DbusMonitor) :
  items (state_of (scan_dbus_service bus serviceName s)) !! n = Some svc →
  items s !! n = Some svc ∨
  (n = serviceName ∧ is_Some (dbusTree s !! class_of n) ∧ has_buckets (buckets svc)).
Proof.
  destruct (scan_writes bus serviceName s) as [(Hr & _) | (_ & Hi & _)].
  - destruct (scan_ok_inv bus serviceName s Hr)
      as (ps & sid & di & Htree & _ & _ & _ & _ & _ & ->).
    unfold published. simpl. rewrite items_after_paths. simpl.
    destruct (decide (serviceName = n)) as [<- | Hne].
    + rewrite lookup_insert_eq. intros [= <-]. right.
      split; [done |]. split; [rewrite Htree; eauto |]. simpl.
      apply has_buckets_buckets_after, has_buckets_empty_buckets.
    + rewrite lookup_insert_ne by done. by left.
  - rewrite Hi. by left.
Qed.

Lemma scan_all_tracks (bus : Bus) (serviceNames : list string) (n : string)
    (svc : service) (s : DbusMonitor) :
  items (state_of (scan_all bus serviceNames s)) !! n = Some svc →
  items s !! n = Some svc ∨
  (n ∈ serviceNames ∧ is_Some (dbusTree s !! class_of n) ∧ has_buckets (buckets svc)).
Proof.
  revert s. induction serviceNames as [| h rest IH]; intros s.
  - by left.
  - simpl. unfold bind, state_of in *.
    pose proof (scan_tracks bus h n svc s) as Hscan.
    pose proof (preserves_scan dbusTree bus h (ltac:(by repeat split)) s) as Htree.
    unfold state_of in Hscan, Htree.
    destruct (scan_dbus_service bus h s) as [[[b | e] s1] h1]; simpl in *.
    + specialize (IH s1).
      destruct (scan_all bus rest s1) as [[r s2] h2]. simpl in *.
      intros H. destruct (IH H) as [H1 | (H1 & H2 & H3)].
      * destruct (Hscan H1) as [? | (-> & ? & ?)]; [by left |].
        right. split; [by left | done].
      * right. split; [by right |]. by rewrite <- Htree.
    + intros H. destruct (Hscan H) as [? | (-> & ? & ?)]; [by left |].
      right. split; [by left | done].
Qed.

(** X15.  After the loop of the constructor over the names on the bus, run on
    the fresh monitor, every tracked service is one of those names, its
    class is a key of the schema, and it carries its four category
    lists. *)
Theorem constructor_tracks_listed_services (bus : Bus) (serviceNames : list string)
    (tree : gmap string (list (string * options)))
    (valueChanged deviceAdded deviceRemoved instance0 : bool)
    (n : string) (svc : service) :
  items (state_of (scan_all bus serviceNames
                     (new_monitor tree valueChanged deviceAdded deviceRemoved instance0)))
    !! n = Some svc →
  n ∈ serviceNames ∧ is_Some (tree !! class_of n) ∧ has_buckets (buckets svc).
Proof.
  intros H. apply scan_all_tracks in H as [H | H]; [| done].
  simpl in H. by rewrite lookup_empty in H.
Qed.

(** *** Missing keys in [get_values_for_service] *)

Lemma for_each_app {A B} (body : A -> B -> outcome A) (a : A) (l1 l2 : list B) :
  for_each body a (l1 ++ l2)
  = and_then (for_each body a l1) (fun a' => for_each body a' l2).
Proof.
  revert a. induction l1 as [| x l1 IH]; intros a; [done |]. simpl.
  destruct (body a x) as [a' | e]; simpl; [apply IH | done].
Qed.

(** X16.  [get_values_for_service] raises [KeyError] with the name for a
    service that is not tracked, whatever the filter, the empty one
    included.  For a tracked service and a filter whose first name that is
    not a key of the service dictionary comes after categories only, the
    categories before it are gone through as usual, so that an exception
    of the converter or of the rounding on one of their paths is the
    outcome; otherwise the outcome is [KeyError] with the unknown name,
    and the rest of the filter is not looked at. *)
Theorem get_values_for_service_key_errors (categories rest : list string)
    (servicename unknown : string)
    (converter : option (string -> value -> outcome value)) (s : DbusMonitor) :
  (items s !! servicename = None →
   ∀ categoryfilter,
     get_values_for_service round_float categoryfilter servicename converter s
     = Raise (KeyError servicename)) ∧
  (∀ svc,
     items s !! servicename = Some svc → has_buckets (buckets svc) →
     Forall (fun category => category ∈ whentologoptions) categories →
     buckets svc !! unknown = None →
     unknown ≠ "serviceId" → unknown ≠ "deviceInstance" → unknown ≠ "match" →
     get_values_for_service round_float (categories ++ unknown :: rest) servicename
       converter s
     = and_then (service_entries round_float categories converter s svc)
         (fun _ => Raise (KeyError unknown))).
Proof.
  split.
  - intros Hi cf. unfold get_values_for_service, get_device_instance. by rewrite Hi.
  - intros svc Hi Hb Hf Hu H1 H2 H3.
    unfold get_values_for_service, get_device_instance. rewrite Hi.
    rewrite for_each_app, for_each_category by done.
    destruct (service_entries round_float categories converter s svc) as [es | e];
      simpl; [| done].
    assert (service_getitem svc unknown = Raise (KeyError unknown)) as ->; [| done].
    unfold service_getitem.
    destruct (String.eqb_spec unknown "serviceId"); [done |].
    destruct (String.eqb_spec unknown "deviceInstance"); [done |].
    destruct (String.eqb_spec unknown "match"); [done |]. simpl. by rewrite Hu.
Qed.

(** *** The cache around a scan *)

Lemma serviceIds_after_paths_other (bus : Bus) (serviceName sid sid' : string)
    (ps : list (string * options)) (s : DbusMonitor) :
  sid' ≠ sid →
  serviceIds (after_paths bus serviceName sid ps s) !! sid' = serviceIds s !! sid'.
Proof.
  intros Hne. revert s. induction ps as [| item ps IH]; intros s; [done |].
  unfold after_paths in *. simpl. rewrite IH. unfold after_path.
  destruct (call_async _ _ _); [| done]. simpl. by rewrite lookup_alter_ne.
Qed.

(** X17.  A scan that returns [True] starts the cache of the bus identity
    afresh: whatever was cached under that identity before, a path has no
    entry afterwards unless [call_async] raised for it, and the name
    recorded for the identity is the scanned one.  The cache of every other
    bus identity is as before. *)
Theorem scan_starts_empty_cache (bus : Bus) (serviceName sid : string)
    (ps : list (string * options)) (s : DbusMonitor) :
  result_of (scan_dbus_service bus serviceName s) = Ok true →
  dbusTree s !! class_of serviceName = Some ps →
  get_name_owner bus serviceName = Returned sid →
  (∀ path, path ∉ ps.*1 ∨ call_async bus serviceName path = None →
           cached sid path (state_of (scan_dbus_service bus serviceName s)) = None) ∧
  (∃ d, serviceIds (state_of (scan_dbus_service bus serviceName s)) !! sid = Some d ∧
        name d = serviceName) ∧
  (∀ sid', sid' ≠ sid →
     serviceIds (state_of (scan_dbus_service bus serviceName s)) !! sid'
     = serviceIds s !! sid').
Proof.
  intros Hr Htree Hown.
  destruct (scan_ok_inv bus serviceName s Hr)
    as (ps' & sid0 & di & Htree' & _ & _ & Hown' & _ & _ & ->).
  assert (ps' = ps) as -> by congruence.
  assert (sid0 = sid) as -> by congruence.
  split; [| split].
  - intros path Hp. rewrite published_cached, cached_after_paths_unwritten by done.
    apply registered_cached.
  - unfold published. simpl.
    assert (∀ ps0 s0 d0, serviceIds s0 !! sid = Some d0 →
      ∃ d, serviceIds (after_paths bus serviceName sid ps0 s0) !! sid = Some d ∧
           name d = name d0) as Hname.
    { induction ps0 as [| item ps0 IH]; intros s0 d0 Hd0; [eauto |].
      unfold after_paths in *. simpl. unfold after_path at 2.
      destruct (call_async bus serviceName item.1).
      - destruct (IH (store_path sid item.1 VNone item.2 s0)
                    {| name := name d0;
                       paths := <[item.1 := (VNone, item.2)]> (paths d0) |})
          as (d & Hd & Hn); [| eauto].
        unfold store_path. simpl. by rewrite lookup_alter_eq, Hd0.
      - apply (IH _ d0). done. }
    destruct (Hname ps (registered serviceName sid s)
                {| name := serviceName; paths := ∅ |}) as (d & Hd & Hn); [| eauto].
    unfold registered. simpl. apply lookup_insert_eq.
  - intros sid' Hne. unfold published. simpl.
    rewrite serviceIds_after_paths_other by done.
    unfold registered. simpl. by rewrite lookup_insert_ne.
Qed.

(** X18.  For a schema path whose request [call_async] accepted, [get_value]
    on the scanned service gives the caller's default until the request
    completes, and the unwrapped value of the reply once
    [_set_value_callback] has run. *)
Theorem get_value_follows_fetch (bus : Bus) (serviceName sid path : string)
    (opts : options) (ps : list (string * options)) (s : DbusMonitor) :
  result_of (scan_dbus_service bus serviceName s) = Ok true →
  dbusTree s !! class_of serviceName = Some ps →
  get_name_owner bus serviceName = Returned sid →
  (path, opts) ∈ ps → call_async bus serviceName path = None →
  (∀ default_value,
     get_value serviceName path default_value
       (state_of (scan_dbus_service bus serviceName s))
     = Ok default_value) ∧
  (∀ v default_value,
     get_value serviceName path default_value
       (state_of (_set_value_callback unwrap_dbus_value sid path opts v
                    (state_of (scan_dbus_service bus serviceName s))))
     = Ok (unwrap_dbus_value v)).
Proof.
  intros Hr Htree Hown Hin Hc.
  destruct (scan_ok_inv bus serviceName s Hr)
    as (ps' & sid0 & di & Htree' & _ & _ & Hown' & _ & _ & Hst).
  assert (ps' = ps) as -> by congruence.
  assert (sid0 = sid) as -> by congruence.
  rewrite Hst.
  pose proof (published_serviceIds bus serviceName sid di ps s) as [d Hd].
  pose proof (published_items bus serviceName sid di ps s) as Hitems.
  split.
  - intros dv. unfold get_value. rewrite Hitems. simpl.
    change (serviceIds (after_paths bus serviceName sid ps (registered serviceName sid s)))
      with (serviceIds (published bus serviceName sid di ps s)).
    rewrite Hd.
    assert (cached sid path (published bus serviceName sid di ps s) = None) as Hnone.
    { rewrite published_cached, cached_after_paths_unwritten by (by right).
      apply registered_cached. }
    unfold cached in Hnone. rewrite Hd in Hnone. simpl in Hnone. by rewrite Hnone.
  - intros v dv. rewrite set_value_callback_run by eauto. unfold state_of. simpl.
    eapply get_value_cached; [exact Hitems |].
    apply cached_store_path_eq. eauto.
Qed.

(** X19.  In every state the monitor can be in, each tracked service has its
    four category lists: the fresh monitor has no service, and every method
    that changes the state keeps the property. *)
Theorem category_lists_invariant (bus : Bus) (s : DbusMonitor) :
  (∀ tree valueChanged deviceAdded deviceRemoved instance0,
     wf_state (new_monitor tree valueChanged deviceAdded deviceRemoved instance0)) ∧
  (wf_state s →
   (∀ serviceName, wf_state (state_of (scan_dbus_service bus serviceName s))) ∧
   (∀ serviceNames, wf_state (state_of (scan_all bus serviceNames s))) ∧
   (∀ name oldowner newowner,
      wf_state (state_of (_process_name_owner_changed bus name oldowner newowner s))) ∧
   (∀ name oldowner newowner,
      wf_state (state_of (dbus_name_owner_changed name oldowner newowner s))) ∧
   (∀ sid path opts v,
      wf_state (state_of (_set_value_callback unwrap_dbus_value sid path opts v s))) ∧
   (∀ sid path opts, wf_state (state_of (_set_value_error sid path opts s))) ∧
   (∀ changes path senderId,
      wf_state (state_of (handler_value_changes unwrap_dbus_value changes path senderId s))) ∧
   (∀ sid path changes opts,
      wf_state (state_of (_execute_value_changes sid path changes opts s)))).
Proof.
  split; [intros; apply wf_state_new_monitor |]. intros Hwf.
  split; [intros; by apply wf_state_scan |].
  split.
  { intros names. revert s Hwf. induction names as [| h rest IH]; intros s Hwf; [done |].
    simpl. unfold bind, state_of in *.
    pose proof (wf_state_scan bus h s Hwf) as Hscan. unfold state_of in Hscan.
    destruct (scan_dbus_service bus h s) as [[[b | e] s1] h1]; simpl in *; [| done].
    specialize (IH s1 Hscan). by destruct (scan_all bus rest s1) as [[r s2] h2]. }
  split; [intros; by apply wf_state_process_name_owner_changed |].
  split; [intros; apply wf_state_keeps_items;
          [apply keeps_items_dbus_name_owner_changed | done] |].
  split; [intros; apply wf_state_keeps_items;
          [apply keeps_items_set_value_callback | done] |].
  split; [intros; apply wf_state_keeps_items;
          [apply keeps_items_set_value_error | done] |].
  split; [intros; apply wf_state_keeps_items;
          [apply keeps_items_handler_value_changes | done] |].
  intros; apply wf_state_keeps_items; [apply keeps_items_execute_value_changes | done].
Qed.

(** *** Names the monitor has no use for *)

Lemma prefix_append (p s : string) :
  String.prefix p s = true ↔ ∃ rest, s = p +:+ rest.
Proof.
  revert s. induction p as [| c p IH]; intros s; simpl.
  - split; [| by destruct s]. intros _. exists s. by destruct s.
  - destruct s as [| c' s]; [split; [done | by intros [rest ?]] |].
    simpl.
    match goal with
    | |- context [match ?d with left _ => _ | right _ => _ end] =>
        destruct d as [<- | Hne]
    end.
    + rewrite IH. split; intros [rest H]; exists rest; [by rewrite H | by injection H].
    + split; [done |]. intros [rest H]. by injection H.
Qed.

(** X20.  The receiver of [NameOwnerChanged] queues an owner change on the
    idle loop exactly when the name is [com.victronenergy.] followed by
    anything; it queues it once, behind what is already queued, and does
    nothing else.  Any other name is dropped on the spot. *)
Theorem owner_change_queued_for_namespace (name oldowner newowner : string)
    (s : DbusMonitor) :
  ((∃ rest, name = "com.victronenergy." +:+ rest) →
   result_of (dbus_name_owner_changed name oldowner newowner s) = Ok tt ∧
   idle_queue (state_of (dbus_name_owner_changed name oldowner newowner s))
   = idle_queue s ++ [ProcessNameOwnerChanged name oldowner newowner] ∧
   items (state_of (dbus_name_owner_changed name oldowner newowner s)) = items s ∧
   serviceIds (state_of (dbus_name_owner_changed name oldowner newowner s))
   = serviceIds s ∧
   owner_calls (state_of (dbus_name_owner_changed name oldowner newowner s))
   = owner_calls s) ∧
  (¬ (∃ rest, name = "com.victronenergy." +:+ rest) →
   dbus_name_owner_changed name oldowner newowner s = (Ok tt, s, [])).
Proof.
  unfold dbus_name_owner_changed. split.
  - intros H. apply prefix_append in H. by rewrite H.
  - intros H. destruct (String.prefix "com.victronenergy." name) eqn:E; [| done].
    exfalso. apply H. by apply prefix_append.
Qed.

(** X21.  A service whose class is not a key of the schema, or is a key with
    no paths, is of no interest: its scan returns [False] and the
    processing of its appearance returns, both without a single write;
    the bus is not asked for its owner and no callback is called. *)
Theorem unknown_class_ignored (bus : Bus) (serviceName oldowner newowner : string)
    (s : DbusMonitor) :
  dbusTree s !! class_of serviceName = None ∨ dbusTree s !! class_of serviceName = Some [] →
  scan_dbus_service bus serviceName s = (Ok false, s, []) ∧
  (newowner ≠ EmptyString →
   _process_name_owner_changed bus serviceName oldowner newowner s = (Ok tt, s, [])).
Proof.
  intros H. pose proof (scan_not_in_tree bus serviceName s H) as Hscan.
  split; [done |]. intros Hne.
  unfold _process_name_owner_changed.
  destruct (String.eqb_spec newowner EmptyString) as [| _]; [done |]. simpl.
  unfold bind. rewrite Hscan. done.
Qed.

(** *** The commit of a scan *)

Lemma scan_commit (bus : Bus) (serviceName : string) (s : DbusMonitor) :
  result_of (scan_dbus_service bus serviceName s) = Ok true →
  ∃ ps sid di W,
    dbusTree s !! class_of serviceName = Some ps ∧ ps ≠ [] ∧
    items s !! serviceName = None ∧
    get_name_owner bus serviceName = Returned sid ∧
    device_instance_of bus serviceName (vebusDeviceInstance0 s) = Ok di ∧
    add_signal_receiver bus serviceName = None ∧
    scan_dbus_service bus serviceName s
    = (Ok true, published bus serviceName sid di ps s,
       W ++ [push_receiver serviceName
               (after_paths bus serviceName sid ps (registered serviceName sid s));
             published bus serviceName sid di ps s]) ∧
    Forall (fun s' => items s' = items s) W.
Proof.
  unfold result_of, scan_dbus_service, bind, gets. simpl.
  destruct (dbusTree s !! class_of serviceName) as [ps |] eqn:Htree; [| done].
  destruct ps as [| item0 rest0] eqn:Eps; [done |]. rewrite <- Eps in *.
  case_bool_decide as Hin; [done |].
  destruct (get_name_owner bus serviceName) as [sid | n] eqn:Hown; [| done]. simpl.
  unfold try_except_dbus, scan_body, bind.
  rewrite read_device_instance_run. simpl.
  destruct (device_instance_of bus serviceName (vebusDeviceInstance0 s))
    as [di | e] eqn:Hdi.
  - pose proof (scan_paths_ok_inv bus serviceName sid ps empty_buckets) as Hp.
    specialize Hp with (s := registered serviceName sid s).
    destruct (keeps_items_scan_paths bus serviceName sid ps empty_buckets
                (registered serviceName sid s)) as [_ Hw2].
    unfold result_of, state_of, writes_of, registered in Hp, Hw2.
    destruct (scan_paths _ _ _ _ _ _) as [[[b | e] s2] h2]; simpl in *.
    + destruct (Hp b eq_refl) as [-> ->].
      destruct (add_signal_receiver bus serviceName) as [n |] eqn:Hrecv; simpl.
      * destruct (vanished n); done.
      * intros _. exists ps, sid, di, (registered serviceName sid s :: h2).
        split; [done |]. split; [by subst ps |].
        split; [destruct (items s !! serviceName) eqn:E; [exfalso; eauto | done] |].
        split; [done |]. split; [done |]. split; [done |]. split.
        -- done.
        -- constructor; [done | done].
    + destruct e; try done. simpl. destruct (vanished dbus_name); done.
  - destruct e; try done. simpl. destruct (vanished dbus_name); done.
Qed.

(** C6.  A scan writes the registry [items] once, as its last write and only
    when it returns [True]: every earlier state it passes through shows the
    registry it started from, so [get_service_list] answers as before the
    scan and [get_value] on the scanned name answers the default.  The scan
    that returns [True] is the one of a name that was not tracked, whose
    class has the schema paths [ps], to which the bus gave the identity
    [sid], the device instance [di] and a signal receiver.  The state
    before its last write has the untouched registry and already holds the
    request for every schema path and the receiver; the last write puts
    under the name the complete service: for each category the schema
    paths of that category in schema order, the identity [sid], the device
    instance [di] and the signal match. *)
Theorem scan_publishes_in_one_final_step (bus : Bus) (serviceName : string)
    (s : DbusMonitor) :
  (∀ pre s' post,
     writes_of (scan_dbus_service bus serviceName s) = pre ++ s' :: post → post ≠ [] →
     items s' = items s ∧
     (∀ classfilter, get_service_list classfilter s' = get_service_list classfilter s) ∧
     (∀ objectPath default_value,
        get_value serviceName objectPath default_value s' = Ok default_value)) ∧
  (result_of (scan_dbus_service bus serviceName s) ≠ Ok true →
     items (state_of (scan_dbus_service bus serviceName s)) = items s ∧
     Forall (fun s' => items s' = items s)
       (writes_of (scan_dbus_service bus serviceName s))) ∧
  (result_of (scan_dbus_service bus serviceName s) = Ok true →
     ∃ ps sid di W before_commit,
       dbusTree s !! class_of serviceName = Some ps ∧ ps ≠ [] ∧
       get_name_owner bus serviceName = Returned sid ∧
       read_device_instance bus serviceName s = (Ok di, s, []) ∧
       add_signal_receiver bus serviceName = None ∧
       items s !! serviceName = None ∧
       state_of (scan_dbus_service bus serviceName s)
       = published bus serviceName sid di ps s ∧
       items (state_of (scan_dbus_service bus serviceName s))
       = <[serviceName := scanned_service serviceName sid di ps]> (items s) ∧
       serviceId (scanned_service serviceName sid di ps) = sid ∧
       deviceInstance (scanned_service serviceName sid di ps) = di ∧
       signal_match (scanned_service serviceName sid di ps) = serviceName ∧
       (∀ category,
          category ∈ whentologoptions →
          buckets (scanned_service serviceName sid di ps) !! category
          = Some (paths_of_category category ps)) ∧
       writes_of (scan_dbus_service bus serviceName s)
       = W ++ [before_commit; state_of (scan_dbus_service bus serviceName s)] ∧
       Forall (fun s' => items s' = items s) W ∧
       items before_commit = items s ∧
       receivers before_commit = receivers s ++ [serviceName] ∧
       async_calls before_commit
       = async_calls s ++ omap (fetch_of bus serviceName sid) ps ∧
       state_of (scan_dbus_service bus serviceName s)
       = set_items (<[serviceName := scanned_service serviceName sid di ps]>)
           before_commit).
Proof.
  pose proof (scan_writes bus serviceName s) as Hw.
  split; [| split].
  - intros pre s' post Heq Hpost.
    assert (items s' = items s ∧ items s !! serviceName = None) as [Hi Hnone].
    { destruct Hw as [(_ & Hnone & W & HW & Hall) | (_ & _ & Hall & Hor)].
      - split; [| done]. rewrite Heq in HW.
        destruct post as [| x post' _] using rev_ind; [done |].
        change (pre ++ s' :: post' ++ [x]) with (pre ++ (s' :: post') ++ [x]) in HW.
        rewrite app_assoc in HW. apply app_inj_tail in HW as [<- _].
        rewrite Forall_forall in Hall. apply Hall. set_solver.
      - rewrite Heq in Hall, Hor. split.
        + rewrite Forall_forall in Hall. apply Hall.
          apply elem_of_app. right. by left.
        + destruct Hor as [Hnil | ?]; [| done]. by apply app_eq_nil in Hnil as [_ ?]. }
    split; [done |]. split.
    + intros cf. by apply get_service_list_items.
    + intros p d. apply get_value_untracked. by rewrite Hi.
  - intros Hr. destruct Hw as [(? & _) | (_ & ? & ? & _)]; done.
  - intros Hr. clear Hw.
    destruct (scan_commit bus serviceName s Hr)
      as (ps & sid & di & W & Htree & Hne & Hnone & Hown & Hdi & Hrecv & Hrun & HW).
    exists ps, sid, di, W,
      (push_receiver serviceName
         (after_paths bus serviceName sid ps (registered serviceName sid s))).
    rewrite Hrun. unfold state_of, writes_of. simpl.
    split; [done |]. split; [done |]. split; [done |].
    split; [by rewrite read_device_instance_run, Hdi |].
    split; [done |]. split; [done |]. split; [done |].
    split; [by rewrite items_after_paths |].
    split; [done |]. split; [done |]. split; [done |].
    split.
    { intros category Hc.
      destruct (has_buckets_empty_buckets category Hc) as [l0 Hl0].
      assert (l0 = []) as ->.
      { unfold whentologoptions in Hc.
        repeat (apply elem_of_cons in Hc as [-> | Hc];
                [vm_compute in Hl0; congruence |]).
        by apply elem_of_nil in Hc. }
      rewrite (buckets_after_lookup ps empty_buckets category [] ); [done | | done].
      intros ->. unfold whentologoptions in Hc. set_solver. }
    split; [done |]. split; [done |].
    split; [by rewrite items_after_paths |].
    split; [by rewrite receivers_after_paths |].
    split; [by rewrite async_calls_after_paths_eq | done].
Qed.

End Properties.

(** ** The battery monitor, step by step *)

Import Scenario.

Example split_example :
  split "." "com.victronenergy.battery.ttyO1"
  = ["com"; "victronenergy"; "battery"; "ttyO1"].
Proof. reflexivity. Qed.

Example class_of_battery : class_of battery = "com.victronenergy.battery".
Proof. reflexivity. Qed.

Example str_examples : str 0 = "0" ∧ str 27 = "27" ∧ str (-3) = "-3".
Proof. repeat split. Qed.

Example int_examples :
  int (VStr " 12 ") = Ok 12 ∧ int (VStr "-7") = Ok (-7) ∧
  int (VStr "abc") = Raise ValueError ∧ int (VFloat (-7 # 2)) = Ok (-3).
Proof. repeat split. Qed.

Example scan_battery : result_of (scan_dbus_service bus battery start) = Ok true.
Proof. vm_compute. reflexivity. Qed.

Example scanned_battery :
  items scanned !! battery
  = Some {| buckets := <["onIntervalAlways" := ["/Soc"]]> empty_buckets;
            serviceId := ":1.5"; deviceInstance := 2; signal_match := battery |}.
Proof. vm_compute. reflexivity. Qed.

Example get_values_fetched :
  get_values round_decimal ["onIntervalAlways"] None fetched
  = Ok {[ "soc[2]" := VInt 42 ]}.
Proof. vm_compute. reflexivity. Qed.

Example round_decimal_examples :
  round_decimal (1234 # 100) 1 = 123 # 10 ∧ round_decimal (271828 # 100000) 0 = 3 # 1 ∧
  round_decimal (-5 # 2) 0 = -3 # 1 ∧ round_decimal (1250 # 1) (-2) = 1300 # 1.
Proof. repeat split. Qed.

Example get_values_measured :
  get_values round_decimal ["onIntervalAlways"] None measured
  = Ok {[ "V[2]" := VFloat (123 # 10) ]}.
Proof. vm_compute. reflexivity. Qed.

(** [round] on a text raises [TypeError], and [get_values] with it. *)
Example get_values_garbled :
  cached ":1.5" "/Dc/0/Voltage" garbled = Some (VStr "---", voltage) ∧
  get_values round_decimal ["onIntervalAlways"] None garbled = Raise TypeError ∧
  get_values_for_service round_decimal ["onIntervalAlways"] battery None garbled
  = Raise TypeError.
Proof. repeat split; vm_compute; reflexivity. Qed.

(** C2.  The battery is tracked and the fetch of [/Soc] has failed, so its
    cache entry is [[None, options]].  [get_value] with default [-1]
    returns [None]: the entry is a non-empty list, which [if not value]
    lets through. *)
Theorem get_value_after_failed_fetch :
  items scanned !! battery ≠ None ∧
  _set_value_error ":1.5" "/Soc" soc scanned
  = (Ok tt, store_path ":1.5" "/Soc" VNone soc scanned,
     [store_path ":1.5" "/Soc" VNone soc scanned]) ∧
  get_value battery "/Soc" (VInt (-1)) (store_path ":1.5" "/Soc" VNone soc scanned)
  = Ok VNone.
Proof. repeat split; by vm_compute. Qed.

(** C3.  The battery was scanned and then left the bus.  The completion of
    its [/Soc] request, arriving afterwards, finds no entry for [:1.5] in
    [serviceIds] and raises [KeyError], on success as on failure. *)
Theorem completion_after_removal_raises :
  items removed !! battery = None ∧
  serviceIds removed !! ":1.5" = None ∧
  _set_value_callback id ":1.5" "/Soc" soc (VInt 42) removed
  = (Raise (KeyError ":1.5"), removed, []) ∧
  _set_value_error ":1.5" "/Soc" soc removed = (Raise (KeyError ":1.5"), removed, []).
Proof.
  assert (serviceIds removed !! ":1.5" = None) as H by (by vm_compute).
  split; [by vm_compute |]. split; [done |]. split.
  - by apply set_value_callback_untracked.
  - by apply set_value_error_untracked.
Qed.

(** C5.  A [PropertiesChanged] signal whose sender [:1.9] has no entry in
    [serviceIds] raises [KeyError]. *)
Theorem signal_from_untracked_sender_raises :
  serviceIds scanned !! ":1.9" = None ∧
  handler_value_changes id {| Value := VInt 7; Text := VStr "7" |} "/Soc" ":1.9" scanned
  = (Raise (KeyError ":1.9"), scanned, []).
Proof.
  assert (serviceIds scanned !! ":1.9" = None) as H by (by vm_compute).
  split; [done |]. by apply handler_value_changes_untracked.
Qed.

(** The part of C5 the code has: a tracked sender and a path without entry. *)
Example signal_for_unknown_path_dropped :
  handler_value_changes id {| Value := VInt 7; Text := VStr "7" |} "/Soc" ":1.5" scanned
  = (Ok tt, scanned, []).
Proof.
  apply handler_value_changes_unknown_path; [| by vm_compute].
  exists {| name := battery; paths := ∅ |}. by vm_compute.
Qed.

(** C4, as the spec has it, fails: the scan returned [True] and [/Soc] has
    no cache entry. *)
Lemma scan_leaves_no_cache_entry :
  ¬ (result_of (scan_dbus_service bus battery start) = Ok true →
     ∀ item, item ∈ [("/Soc", soc); ("/Serial", serial)] →
             is_Some (cached ":1.5" item.1 scanned)).
Proof.
  intros H. destruct (H scan_battery ("/Soc", soc)) as [e He]; [by left |].
  vm_compute in He. discriminate He.
Qed.

Lemma scan_fetches_every_schema_path_witness :
  ∃ svc,
    items scanned !! battery = Some svc ∧
    cached (serviceId svc) "/Soc" scanned = None ∧
    {| call_service := battery; call_path := "/Soc";
       call_serviceId := serviceId svc; call_options := soc |} ∈ async_calls scanned.
Proof.
  destruct (scan_fetches_every_schema_path id bus battery "/Soc" soc
              [("/Soc", soc); ("/Serial", serial)] start)
    as (svc & Hi & _ & Hc & Ha & _).
  - vm_compute. reflexivity.
  - vm_compute. reflexivity.
  - repeat constructor; vm_compute; intros H; inversion H; subst;
      match goal with H' : _ ∈ [] |- _ => inversion H' end.
  - left.
  - exists svc. repeat split; assumption.
Defined.

(** C7, as the spec has it, fails: [call_async] raises a bus error that is
    neither [ServiceUnknown] nor [Disconnected], and the scan returns
    [True]. *)
Lemma scan_absorbs_fetch_error :
  call_async refusing_bus battery "/Soc" = Some "org.freedesktop.DBus.Error.NoReply" ∧
  vanished "org.freedesktop.DBus.Error.NoReply" = false ∧
  result_of (scan_dbus_service refusing_bus battery start) = Ok true.
Proof. repeat split; by vm_compute. Qed.

(** The scan that was given up leaves the cache dictionary it had created
    for the bus identity. *)
Example aborted_scan_leaves_cache_dictionary :
  serviceIds (state_of (scan_dbus_service vanishing_bus battery start)) !! ":1.5"
  = Some {| name := battery; paths := ∅ |}.
Proof. vm_compute. reflexivity. Qed.

Lemma scan_bus_failures_witness :
  result_of (scan_dbus_service vanishing_bus battery start) = Ok false ∧
  items (state_of (scan_dbus_service vanishing_bus battery start)) = items start.
Proof.
  refine (proj1 (scan_bus_failures vanishing_bus battery ":1.5"
                   [("/Soc", soc); ("/Serial", serial)] start _ _ _ _ _)
            "org.freedesktop.DBus.Error.ServiceUnknown" _ _).
  - vm_compute. reflexivity.
  - discriminate.
  - vm_compute. reflexivity.
  - reflexivity.
  - repeat constructor.
  - reflexivity.
  - reflexivity.
Defined.

(** C9, as the spec has it, fails: the device instance on the bus is the
    text [abc]; the scan raises [ValueError] and the service is not
    tracked, with instance 0 or otherwise. *)
Lemma scan_unparseable_device_instance :
  import_get_value text_bus battery "/DeviceInstance" = Returned (VStr "abc") ∧
  result_of (scan_dbus_service text_bus battery start) = Raise ValueError ∧
  items (state_of (scan_dbus_service text_bus battery start)) !! battery = None.
Proof. repeat split; by vm_compute. Qed.

Lemma device_instance_read_witness :
  read_device_instance bus battery start = (Ok 2, start, []) ∧
  ∃ svc, items scanned !! battery = Some svc ∧ deviceInstance svc = 2.
Proof.
  destruct (device_instance_read bus battery start) as (_ & Hread & Hpub & _).
  assert (¬ (battery = "com.victronenergy.vebus.ttyO1"
             ∧ vebusDeviceInstance0 start = true)) as Hn.
  { intros [H _]. discriminate H. }
  destruct (Hread Hn) as [_ Hv].
  specialize (Hv (VInt 2) eq_refl). split.
  - apply Hv. discriminate.
  - destruct Hpub as (svc & Hi & Hd).
    + vm_compute. reflexivity.
    + exists svc. split; [exact Hi |].
      rewrite Hv in Hd by discriminate. unfold result_of in Hd. simpl in Hd.
      injection Hd as Hd. symmetry. exact Hd.
Defined.

Lemma scan_publishes_in_one_final_step_witness :
  ∃ W before_commit,
    items scanned !! battery
    = Some {| buckets := <["onIntervalAlways" := ["/Soc"]]> empty_buckets;
              serviceId := ":1.5"; deviceInstance := 2; signal_match := battery |} ∧
    writes_of (scan_dbus_service bus battery start) = W ++ [before_commit; scanned] ∧
    Forall (fun s' => items s' = items start) W ∧
    items before_commit = items start ∧
    receivers before_commit = receivers start ++ [battery] ∧
    async_calls before_commit
    = async_calls start
      ++ [{| call_service := battery; call_path := "/Soc";
             call_serviceId := ":1.5"; call_options := soc |};
          {| call_service := battery; call_path := "/Serial";
             call_serviceId := ":1.5"; call_options := serial |}].
Proof.
  destruct (scan_publishes_in_one_final_step bus battery start) as (_ & _ & H).
  destruct (H scan_battery)
    as (ps & sid & di & W & before_commit & Htree & _ & Hown & Hdi & _ & _ & _ & Hitems
        & _ & _ & _ & _ & Hw & HW & Hbi & Hbr & Hba & _).
  vm_compute in Htree. injection Htree as <-.
  injection Hown as <-.
  vm_compute in Hdi. injection Hdi as <-.
  exists W, before_commit.
  split; [unfold scanned; rewrite Hitems; vm_compute; reflexivity |].
  split; [exact Hw |]. split; [exact HW |]. split; [exact Hbi |].
  split; [exact Hbr | exact Hba].
Defined.



(** ** More of the battery monitor, step by step *)

Import Site.

Lemma battery_tracked : items scanned !! battery = Some battery_service.
Proof. vm_compute. reflexivity. Qed.

Lemma battery_in_tree : dbusTree start !! class_of battery = Some battery_paths.
Proof. vm_compute. reflexivity. Qed.

Lemma rescan_asserts_witness :
  scan_dbus_service bus battery scanned = (Raise AssertionError, scanned, []).
Proof.
  unfold scanned. apply rescan_asserts. vm_compute. reflexivity.
Defined.

Lemma scan_unknown_category_asserts_witness :
  result_of (scan_dbus_service bus battery odd_start) = Raise AssertionError ∧
  items (state_of (scan_dbus_service bus battery odd_start)) = items odd_start.
Proof.
  refine (scan_unknown_category_asserts bus battery ":1.5"
            [("/Soc", {| code := "soc"; whenToLog := Some "sometimes";
                         precision := None |})] 2 odd_start _ _ _ _ _).
  - vm_compute. reflexivity.
  - left. reflexivity.
  - reflexivity.
  - reflexivity.
  - reflexivity.
Defined.

Lemma scan_buckets_by_category_witness :
  ∃ svc,
    items (state_of (scan_dbus_service bus battery start)) !! battery = Some svc ∧
    buckets svc !! "onIntervalAlways" = Some ["/Soc"] ∧
    buckets svc !! "configChange" = Some [].
Proof.
  destruct (scan_buckets_by_category bus battery battery_paths start)
    as (svc & Hi & Hb & _).
  - vm_compute. reflexivity.
  - exact battery_in_tree.
  - exists svc. split; [exact Hi |]. split.
    + rewrite Hb by repeat constructor. reflexivity.
    + rewrite Hb by repeat constructor. reflexivity.
Defined.

Lemma scan_requests_and_receiver_witness :
  ∃ ps sid,
    dbusTree start !! class_of battery = Some ps ∧
    get_name_owner bus battery = Returned sid ∧
    async_calls (state_of (scan_dbus_service bus battery start))
    = async_calls start ++ omap (fetch_of bus battery sid) ps ∧
    receivers (state_of (scan_dbus_service bus battery start))
    = receivers start ++ [battery].
Proof.
  destruct (scan_requests_and_receiver bus battery start) as [H _].
  apply H. vm_compute. reflexivity.
Defined.

Lemma scan_leaves_the_rest_witness :
  items (state_of (scan_dbus_service bus battery start)) !! charger
  = items start !! charger.
Proof.
  destruct (scan_leaves_the_rest bus battery start) as (_ & _ & _ & _ & H).
  apply H. discriminate.
Defined.

Lemma scan_starts_empty_cache_witness :
  cached ":1.5" "/Soc" (state_of (scan_dbus_service bus battery start)) = None.
Proof.
  destruct (scan_starts_empty_cache bus battery ":1.5" battery_paths start)
    as (H & _).
  - vm_compute. reflexivity.
  - exact battery_in_tree.
  - reflexivity.
  - apply H. right. reflexivity.
Defined.

Lemma get_value_follows_fetch_witness :
  get_value battery "/Soc" (VInt (-1)) (state_of (scan_dbus_service bus battery start))
  = Ok (VInt (-1)) ∧
  get_value battery "/Soc" (VInt (-1))
    (state_of (_set_value_callback id ":1.5" "/Soc" soc (VInt 42)
                 (state_of (scan_dbus_service bus battery start))))
  = Ok (id (VInt 42)).
Proof.
  destruct (get_value_follows_fetch id bus battery ":1.5" "/Soc" soc battery_paths start)
    as [H1 H2].
  - vm_compute. reflexivity.
  - exact battery_in_tree.
  - reflexivity.
  - left.
  - reflexivity.
  - split; [apply H1 | apply H2].
Defined.

Lemma removal_forgets_service_witness :
  (items (state_of (_process_name_owner_changed bus battery ":1.5" EmptyString scanned))
   = delete battery (items scanned) ∧
   ∀ objectPath default_value,
     get_value battery objectPath default_value
       (state_of (_process_name_owner_changed bus battery ":1.5" EmptyString scanned))
     = Ok default_value) ∧
  _process_name_owner_changed bus spare ":1.5" EmptyString spare_left
  = (Raise (KeyError ":1.5"), spare_left, []).
Proof.
  destruct (removal_forgets_service bus battery ":1.5" battery_service scanned
              battery_tracked) as [Hthere _].
  destruct (removal_forgets_service bus spare ":1.5"
              (scanned_service spare ":1.5" 2 battery_paths) spare_left) as [_ Hgone].
  - vm_compute. reflexivity.
  - split.
    + destruct Hthere as (_ & Hi & _ & _ & _ & _ & Hg & _).
      * exists {| name := battery; paths := ∅ |}. vm_compute. reflexivity.
      * split; [exact Hi | exact Hg].
    + apply Hgone. vm_compute. reflexivity.
Defined.

Lemma owner_change_queued_for_namespace_witness :
  idle_queue (state_of (dbus_name_owner_changed battery EmptyString ":1.5" start))
  = idle_queue start ++ [ProcessNameOwnerChanged battery EmptyString ":1.5"].
Proof.
  destruct (owner_change_queued_for_namespace battery EmptyString ":1.5" start)
    as ((_ & H & _) & _).
  - exists "battery.ttyO1". reflexivity.
  - exact H.
Defined.

Lemma unknown_class_ignored_witness :
  scan_dbus_service bus charger start = (Ok false, start, []) ∧
  _process_name_owner_changed bus charger EmptyString ":1.8" start = (Ok tt, start, []).
Proof.
  destruct (unknown_class_ignored bus charger EmptyString ":1.8" start) as [H1 H2].
  - left. vm_compute. reflexivity.
  - split; [exact H1 | apply H2; discriminate].
Defined.

Lemma get_service_list_lookup_witness :
  get_service_list (Some "com.victronenergy.battery.ttyUSB7") scanned
  = get_service_list (Some "com.victronenergy.battery") scanned.
Proof.
  destruct (get_service_list_lookup (Some "com.victronenergy.battery") scanned)
    as (_ & _ & H).
  apply H. reflexivity.
Defined.

Lemma appearance_scans_then_notifies_witness :
  ∃ svc,
    items (state_of (scan_dbus_service bus battery start)) !! battery = Some svc ∧
    result_of (_process_name_owner_changed bus battery EmptyString ":1.5" start) = Ok tt ∧
    state_of (_process_name_owner_changed bus battery EmptyString ":1.5" start)
    = if deviceAddedCallback start
      then push_owner_call (DeviceAdded battery (deviceInstance svc))
             (state_of (scan_dbus_service bus battery start))
      else state_of (scan_dbus_service bus battery start).
Proof.
  destruct (appearance_scans_then_notifies bus battery EmptyString ":1.5" start)
    as (H & _).
  - discriminate.
  - apply H. vm_compute. reflexivity.
Defined.

Lemma scan_then_removal_witness :
  items (state_of (_process_name_owner_changed bus battery ":1.5" EmptyString
                     (state_of (scan_dbus_service bus battery start))))
  = items start.
Proof.
  destruct (scan_then_removal bus bus battery ":1.5" start) as (_ & H & _).
  - vm_compute. reflexivity.
  - exact H.
Defined.

Lemma signal_updates_cached_value_witness :
  cached ":1.5" "/Soc"
    (state_of (handler_value_changes id soc_changed "/Soc" ":1.5" fetched))
  = Some (id (Value soc_changed), soc).
Proof.
  destruct (signal_updates_cached_value id soc_changed "/Soc" ":1.5" (VInt 42) soc fetched)
    as (_ & H & _).
  - vm_compute. reflexivity.
  - exact H.
Defined.

Lemma deferred_notification_witness :
  _execute_value_changes ":1.5" "/Soc" soc_changed soc scanned
  = (Ok tt, push_owner_call (ValueChanged battery "/Soc" soc soc_changed 2) scanned,
     [push_owner_call (ValueChanged battery "/Soc" soc soc_changed 2) scanned]) ∧
  _execute_value_changes ":1.5" "/Soc" soc_changed soc silent
  = (Raise TypeError, silent, []) ∧
  _execute_value_changes (serviceId battery_service) "/Soc" soc_changed soc
    (state_of (_process_name_owner_changed bus battery ":1.5" EmptyString scanned))
  = (Ok tt,
     state_of (_process_name_owner_changed bus battery ":1.5" EmptyString scanned), []).
Proof.
  destruct (deferred_notification bus battery ":1.5" "/Soc" soc_changed soc
              battery_service scanned battery_tracked) as (Hcall & _ & Hdrop).
  destruct (deferred_notification bus battery ":1.5" "/Soc" soc_changed soc
              battery_service silent) as (Hnone & _ & _).
  - vm_compute. reflexivity.
  - assert (valueChangedCallback scanned = true) as Eon by (vm_compute; reflexivity).
    assert (valueChangedCallback silent = false) as Eoff by (vm_compute; reflexivity).
    assert (serviceIds scanned !! ":1.5"
            = Some {| name := battery; paths := ∅ |})
      as Hscanned by (vm_compute; reflexivity).
    assert (serviceIds silent !! ":1.5"
            = Some {| name := battery; paths := ∅ |})
      as Hsilent by (vm_compute; reflexivity).
    specialize (Hcall _ Hscanned eq_refl). rewrite Eon in Hcall.
    specialize (Hnone _ Hsilent eq_refl). rewrite Eoff in Hnone.
    split; [exact Hcall |]. split; [exact Hnone |].
    apply Hdrop. eexists. exact Hscanned.
Defined.

Lemma tracked_service_listed_under_its_class_witness :
  ∃ r, get_service_list (Some (class_of battery)) scanned = Ok r ∧
       r !! battery = Some (deviceInstance battery_service).
Proof.
  exact (tracked_service_listed_under_its_class battery battery_service scanned
           battery_tracked).
Defined.

Lemma constructor_tracks_listed_services_witness :
  battery ∈ [charger; battery] ∧
  is_Some (tree !! class_of battery) ∧
  has_buckets (buckets battery_service).
Proof.
  refine (constructor_tracks_listed_services bus [charger; battery] tree
            true true true false battery battery_service _).
  vm_compute. reflexivity.
Defined.

Lemma get_values_for_service_key_errors_witness :
  get_values_for_service round_decimal [] charger None scanned
  = Raise (KeyError charger) ∧
  get_values_for_service round_decimal (["onIntervalAlways"] ++ "sometimes" :: [])
    battery None scanned
  = Raise (KeyError "sometimes") ∧
  get_values_for_service round_decimal (["onIntervalAlways"] ++ "sometimes" :: [])
    battery None garbled
  = Raise TypeError.
Proof.
  destruct (get_values_for_service_key_errors round_decimal ["onIntervalAlways"] []
              charger "sometimes" None scanned) as [H1 _].
  destruct (get_values_for_service_key_errors round_decimal ["onIntervalAlways"] []
              battery "sometimes" None scanned) as [_ H2].
  destruct (get_values_for_service_key_errors round_decimal ["onIntervalAlways"] []
              battery "sometimes" None garbled) as [_ H3].
  split; [| split].
  - apply H1. vm_compute. reflexivity.
  - rewrite (H2 battery_service battery_tracked).
    + vm_compute. reflexivity.
    + apply has_buckets_buckets_after, has_buckets_empty_buckets.
    + repeat constructor.
    + vm_compute. reflexivity.
    + discriminate.
    + discriminate.
    + discriminate.
  - rewrite (H3 (scanned_service battery ":1.5" 2 [("/Dc/0/Voltage", voltage)])).
    + vm_compute. reflexivity.
    + vm_compute. reflexivity.
    + apply has_buckets_buckets_after, has_buckets_empty_buckets.
    + repeat constructor.
    + vm_compute. reflexivity.
    + discriminate.
    + discriminate.
    + discriminate.
Defined.

Lemma category_lists_invariant_witness :
  wf_state (state_of (scan_dbus_service bus battery start)).
Proof.
  destruct (category_lists_invariant id bus start) as [Hnew Hkeep].
  destruct (Hkeep (Hnew tree true true true false)) as [Hscan _].
  apply Hscan.
Defined.
